(** * SalaUrgencias: the visit allocation and release transactions of database.py

    A shallow embedding of [src/database.py].  The three tables the code
    touches are lists of rows in scan order, a connection is the database
    together with the statements executed on it, the body of a [with tx()]
    block is a state-and-exception computation over a connection, and [tx]
    commits the body's database when it returns and restores the initial one
    when it raises. *)

From Stdlib Require Import ZArith List Bool String DecimalString Lia Arith Permutation
  Sorted.
Import ListNotations.
Open Scope string_scope.
Open Scope list_scope.
Open Scope Z_scope.

Set Implicit Arguments.

(** ** Rows and tables *)

(** Modelled from the spec: the schema of the three tables, which is not part
    of database.py.  The columns are the ones the SQL text names; identities
    are SQLite integers, the 0/1 flags [activo] and [disponible] are the
    booleans [active] and [available] of the data model, and the two [estado]
    columns are its enumerations FREE/OCCUPIED and OPEN/CLOSED. *)

Module Doctor.
Record t := mk { id_doctor : Z; activo : bool; disponible : bool }.
End Doctor.

Inductive EstadoCama := LIBRE | OCUPADA.

Module Cama.
Record t := mk { id_cama : Z; id_sala : Z; estado : EstadoCama }.
End Cama.

Inductive EstadoVisita := ABIERTA | CERRADA.

Module Visita.
Record t := mk {
  id_visita : Z;
  folio : string;
  id_paciente : Z;
  id_doctor : Z;
  id_trabajador : Z;
  id_sala : Z;
  id_cama : Z;
  origen_solicitud : string;
  prioridad : Z;
  motivo : string;
  fecha_hora_inicio : string;
  fecha_hora_cierre : option string;
  estado : EstadoVisita }.
End Visita.

Record BD := mkBD {
  DOCTORES : list Doctor.t;
  CAMAS : list Cama.t;
  VISITAS_EMERGENCIA : list Visita.t }.

(** The [payload] dict of [crear_visita_tx]: a key that is absent is [None].
    The values have the types of the interface: the identities and the
    priority are Python ints (unbounded), the origin and the reason text. *)
Module Payload.
Record t := mk {
  id_paciente : option Z;
  id_trabajador : option Z;
  origen_solicitud : option string;
  prioridad : option Z;
  motivo : option string }.
End Payload.

Definition libre (c : Cama.t) : bool :=
  match Cama.estado c with LIBRE => true | OCUPADA => false end.

Definition abierta (v : Visita.t) : bool :=
  match Visita.estado v with ABIERTA => true | CERRADA => false end.

(** ** The SQL the code uses *)

Section SQL.
Variable A : Type.

(** [UPDATE t SET ... WHERE p]: the rows that satisfy [p] are rewritten in
    place and [rowcount] is the number of rows that satisfied [p]. *)
Definition sql_update (p : A -> bool) (f : A -> A) (t : list A) : list A * nat :=
  (map (fun r => if p r then f r else r) t, List.length (filter p t)).

(** [ORDER BY]: a stable insertion sort for the order [leb]. *)
Variable leb : A -> A -> bool.

Fixpoint insertar (x : A) (l : list A) : list A :=
  match l with
  | [] => [x]
  | y :: l' => if leb x y then x :: l else y :: insertar x l'
  end.

Fixpoint order_by (l : list A) : list A :=
  match l with
  | [] => []
  | x :: l' => insertar x (order_by l')
  end.

(** [LIMIT 1] followed by [fetchone()]. *)
Definition limit_1 (l : list A) : option A := hd_error l.
End SQL.

(** [SELECT COUNT( * ) FROM VISITAS_EMERGENCIA v
     WHERE v.id_doctor=d.id_doctor AND v.estado='ABIERTA']. *)
Definition visitas_abiertas_de (bd : BD) (d : Doctor.t) : nat :=
  List.length (filter (fun v => (Visita.id_doctor v =? Doctor.id_doctor d) && abierta v)
                 (VISITAS_EMERGENCIA bd)).

Definition elegible (d : Doctor.t) : bool :=
  Doctor.activo d && Doctor.disponible d.

Definition menos_cargado (bd : BD) (d1 d2 : Doctor.t) : bool :=
  (visitas_abiertas_de bd d1 <=? visitas_abiertas_de bd d2)%nat.

(** [ORDER BY id_sala, id_cama]. *)
Definition cama_leb (c1 c2 : Cama.t) : bool :=
  (Cama.id_sala c1 <? Cama.id_sala c2)
  || ((Cama.id_sala c1 =? Cama.id_sala c2) && (Cama.id_cama c1 <=? Cama.id_cama c2)).

(** The query of [_seleccionar_doctor_disponible]; [r[0] if r else None]. *)
Definition q_doctor_disponible (bd : BD) : option Z :=
  option_map Doctor.id_doctor
    (limit_1 (order_by (menos_cargado bd) (filter elegible (DOCTORES bd)))).

(** The query of [_seleccionar_cama_libre]; the pair [(None, None)] of the
    code is [None] here and [(r[0], r[1])] is [Some (id_cama, id_sala)]. *)
Definition q_cama_libre (bd : BD) : option (Z * Z) :=
  option_map (fun c => (Cama.id_cama c, Cama.id_sala c))
    (limit_1 (order_by cama_leb (filter libre (CAMAS bd)))).

(** ** Connections, statements and exceptions *)

Inductive Sentencia :=
| PRAGMA_foreign_keys
| BEGIN_IMMEDIATE
| COMMIT
| ROLLBACK
| SELECT_doctor_disponible
| SELECT_cama_libre
| UPDATE_ocupar_doctor (id_doctor : Z)
| UPDATE_ocupar_cama (id_cama id_sala : Z)
| UPDATE_liberar_doctor (id_doctor : Z)
| INSERT_visita
| SELECT_folio_insertado
| UPDATE_cerrar_visita (folio : string)
| UPDATE_liberar_doctor_de_visita (folio : string)
| UPDATE_liberar_cama_de_visita (folio : string).

Definition es_escritura (s : Sentencia) : bool :=
  match s with
  | UPDATE_ocupar_doctor _ | UPDATE_ocupar_cama _ _ | UPDATE_liberar_doctor _
  | INSERT_visita | UPDATE_cerrar_visita _
  | UPDATE_liberar_doctor_de_visita _ | UPDATE_liberar_cama_de_visita _ => true
  | _ => false
  end.

Record Conn := mkConn { bd : BD; traza : list Sentencia }.

Inductive Excepcion :=
| No_hay_doctor_disponible        (* RuntimeError("No hay doctor disponible") *)
| No_hay_camas_libres             (* RuntimeError("No hay camas libres") *)
| Recursos_tomados                (* RuntimeError("Recursos tomados, reintente") *)
| Visita_no_encontrada_o_cerrada  (* RuntimeError("Visita no encontrada o ya cerrada") *)
| KeyError (clave : string)       (* payload['...'] on an absent key *)
| OverflowError                   (* a Python int that does not fit a SQLite INTEGER *)
| TypeError.                      (* row['folio'] when fetchone() gave None *)

Inductive Res (A : Type) := Ok (a : A) | Raise (e : Excepcion).
Arguments Raise {A} e.

(** The body of a [with tx() as conn] block. *)
Definition Tx (A : Type) : Type := Conn -> Res A * Conn.

Definition ret {A} (a : A) : Tx A := fun c => (Ok a, c).

Definition raise {A} (e : Excepcion) : Tx A := fun c => (Raise e, c).

Definition bind {A B} (m : Tx A) (k : A -> Tx B) : Tx B :=
  fun c => match m c with
           | (Ok a, c') => k a c'
           | (Raise e, c') => (Raise e, c')
           end.

Declare Scope tx_scope.
Delimit Scope tx_scope with tx.
Notation "x <- m ;; k" := (bind m (fun x => k))
  (at level 100, m at next level, right associativity) : tx_scope.
Notation "m ;;; k" := (bind m (fun _ => k))
  (at level 100, right associativity) : tx_scope.
Open Scope tx_scope.

(** [conn.execute] of a query: the database is read, the statement logged. *)
Definition consultar {A} (s : Sentencia) (q : BD -> A) : Tx A :=
  fun c => (Ok (q (bd c)), mkConn (bd c) (traza c ++ [s])).

(** [conn.execute] of a write; the value is what the code reads back from the
    cursor ([rowcount]). *)
Definition escribir {A} (s : Sentencia) (w : BD -> BD * A) : Tx A :=
  fun c => let (bd', a) := w (bd c) in (Ok a, mkConn bd' (traza c ++ [s])).

(** [connect] followed by [tx]: BEGIN IMMEDIATE, the body, then COMMIT, or
    ROLLBACK and re-raise when the body raised.  The result is what the caller
    sees: the value or the exception, the database left behind and the
    statements that were executed. *)
Definition tx {A} (cuerpo : Tx A) (bd0 : BD) : Res A * BD * list Sentencia :=
  match cuerpo (mkConn bd0 [PRAGMA_foreign_keys; BEGIN_IMMEDIATE]) with
  | (Ok a, c) => (Ok a, bd c, traza c ++ [COMMIT])
  | (Raise e, c) => (Raise e, bd0, traza c ++ [ROLLBACK])
  end.

(** ** Selection ([_seleccionar_doctor_disponible], [_seleccionar_cama_libre]) *)

Definition _seleccionar_doctor_disponible : Tx (option Z) :=
  consultar SELECT_doctor_disponible q_doctor_disponible.

Definition _seleccionar_cama_libre : Tx (option (Z * Z)) :=
  consultar SELECT_cama_libre q_cama_libre.

(** ** Claiming ([_ocupar_recursos]) *)

Definition con_disponible (b : bool) (d : Doctor.t) : Doctor.t :=
  Doctor.mk (Doctor.id_doctor d) (Doctor.activo d) b.

Definition con_estado (e : EstadoCama) (c : Cama.t) : Cama.t :=
  Cama.mk (Cama.id_cama c) (Cama.id_sala c) e.

Definition es_cama (id_cama id_sala : Z) (c : Cama.t) : bool :=
  (Cama.id_cama c =? id_cama) && (Cama.id_sala c =? id_sala).

(** [UPDATE DOCTORES SET disponible=0 WHERE id_doctor=? AND disponible=1]. *)
Definition ocupar_doctor (id_doctor : Z) (s : BD) : BD * nat :=
  let (ds, n) :=
    sql_update (fun d => (Doctor.id_doctor d =? id_doctor) && Doctor.disponible d)
               (con_disponible false) (DOCTORES s) in
  (mkBD ds (CAMAS s) (VISITAS_EMERGENCIA s), n).

(** [UPDATE CAMAS SET estado='OCUPADA'
     WHERE id_cama=? AND id_sala=? AND estado='LIBRE']. *)
Definition ocupar_cama (id_cama id_sala : Z) (s : BD) : BD * nat :=
  let (cs, n) :=
    sql_update (fun c => es_cama id_cama id_sala c && libre c)
               (con_estado OCUPADA) (CAMAS s) in
  (mkBD (DOCTORES s) cs (VISITAS_EMERGENCIA s), n).

(** [UPDATE DOCTORES SET disponible=1 WHERE id_doctor=?]. *)
Definition liberar_doctor (id_doctor : Z) (s : BD) : BD * nat :=
  let (ds, n) :=
    sql_update (fun d => Doctor.id_doctor d =? id_doctor)
               (con_disponible true) (DOCTORES s) in
  (mkBD ds (CAMAS s) (VISITAS_EMERGENCIA s), n).

(** The cursor of the compensating UPDATE is not read. *)
Definition _ocupar_recursos (id_doctor id_cama id_sala_cama : Z) : Tx bool :=
  rowcount <- escribir (UPDATE_ocupar_doctor id_doctor) (ocupar_doctor id_doctor) ;;
  if negb (rowcount =? 1)%nat then ret false else
  rowcount <- escribir (UPDATE_ocupar_cama id_cama id_sala_cama)
                       (ocupar_cama id_cama id_sala_cama) ;;
  if negb (rowcount =? 1)%nat then
    escribir (UPDATE_liberar_doctor id_doctor) (liberar_doctor id_doctor) ;;;
    ret false
  else ret true.

(** The database inside the transaction once both claims were made. *)
Definition reclamados (id_doctor id_cama id_sala : Z) (s : BD) : BD :=
  fst (ocupar_cama id_cama id_sala (fst (ocupar_doctor id_doctor s))).

(** ** Opening a visit ([crear_visita_tx]) *)

(** What [crear_visita_tx] returns. *)
Module Asignacion.
Record t := mk { folio : string; id_doctor : Z; id_cama : Z; id_sala : Z }.
End Asignacion.

(** The rowid SQLite gives to a row inserted without one: 1 in an empty
    table, else one more than the largest in use.  (Once the largest rowid,
    2^63-1, is in use SQLite looks for an unused one at random; that case is
    not represented.) *)
Fixpoint max_rowid (vs : list Visita.t) : option Z :=
  match vs with
  | [] => None
  | v :: vs' =>
      match max_rowid vs' with
      | None => Some (Visita.id_visita v)
      | Some m => Some (Z.max (Visita.id_visita v) m)
      end
  end.

Definition siguiente_rowid (vs : list Visita.t) : Z :=
  match max_rowid vs with None => 1 | Some m => m + 1 end.

(** [payload['clave']]. *)
Definition item {A} (clave : string) (x : option A) : Tx A :=
  match x with Some a => ret a | None => raise (KeyError clave) end.

(** [payload.get('clave', defecto)]. *)
Definition get {A} (x : option A) (defecto : A) : A :=
  match x with Some a => a | None => defecto end.

(** [int(x)] on a Python int.  The payload record types [prioridad] as an
    integer; values of other types, on which [int] may raise, are not
    represented. *)
Definition int (n : Z) : Z := n.

(** A Python int can be bound to a statement when it fits a SQLite INTEGER,
    a signed 64-bit integer; [execute] raises [OverflowError] otherwise,
    before the statement runs.  The integers read from the tables are SQLite
    integers already. *)
Definition enlazable (n : Z) : bool := (- 2 ^ 63 <=? n) && (n <? 2 ^ 63).

(** [SELECT folio FROM VISITAS_EMERGENCIA
     WHERE id_visita = (SELECT last_insert_rowid())], [fetchone()]. *)
Definition q_folio_de (rowid : Z) (s : BD) : option string :=
  option_map Visita.folio
    (limit_1 (filter (fun v => Visita.id_visita v =? rowid) (VISITAS_EMERGENCIA s))).

Section Crear.

(** Modelled from the spec: the folio of a new visit.  The INSERT of
    [crear_visita_tx] passes NULL for [folio] and the code then reads the
    folio back from the row, so the schema, which is not part of
    database.py, fills it in: "identity ([folio], assigned by the store on
    creation)".  [genera_folio s rowid] is the folio the store gives to the
    row inserted with [rowid] into the database [s]. *)
Variable genera_folio : BD -> Z -> string.

(** The INSERT; the value is [last_insert_rowid()]. *)
Definition insertar_visita
    (id_paciente id_doctor id_trabajador id_sala id_cama : Z)
    (origen_solicitud : string) (prioridad : Z) (motivo fecha_hora_inicio : string)
    (s : BD) : BD * Z :=
  let rowid := siguiente_rowid (VISITAS_EMERGENCIA s) in
  let v := Visita.mk rowid (genera_folio s rowid) id_paciente id_doctor
             id_trabajador id_sala id_cama origen_solicitud prioridad motivo
             fecha_hora_inicio None ABIERTA in
  (mkBD (DOCTORES s) (CAMAS s) (VISITAS_EMERGENCIA s ++ [v]), rowid).

(** [ahora] is [datetime.now().isoformat(timespec='seconds')].  The tests
    [if not id_doctor] and [if not id_cama] are Python truth tests: they
    hold for [None] and for the integer 0.  The parameters of the INSERT are
    built in the order of the tuple and bound when [execute] is called. *)
Definition crear_visita_cuerpo (ahora : string) (payload : Payload.t)
  : Tx Asignacion.t :=
  id_doctor <- _seleccionar_doctor_disponible ;;
  match id_doctor with
  | None => raise No_hay_doctor_disponible
  | Some id_doctor =>
  if id_doctor =? 0 then raise No_hay_doctor_disponible else
  r <- _seleccionar_cama_libre ;;
  match r with
  | None => raise No_hay_camas_libres
  | Some (id_cama, id_sala_dest) =>
  if id_cama =? 0 then raise No_hay_camas_libres else
  ocupados <- _ocupar_recursos id_doctor id_cama id_sala_dest ;;
  if negb ocupados then raise Recursos_tomados else
  id_paciente <- item "id_paciente" (Payload.id_paciente payload) ;;
  id_trabajador <- item "id_trabajador" (Payload.id_trabajador payload) ;;
  origen_solicitud <- item "origen_solicitud" (Payload.origen_solicitud payload) ;;
  let prioridad := int (get (Payload.prioridad payload) 3) in
  if negb (enlazable id_paciente && enlazable id_trabajador && enlazable prioridad)
  then raise OverflowError else
  rowid <- escribir INSERT_visita
             (insertar_visita id_paciente id_doctor id_trabajador id_sala_dest
                id_cama origen_solicitud prioridad
                (get (Payload.motivo payload) "") ahora) ;;
  row <- consultar SELECT_folio_insertado (q_folio_de rowid) ;;
  match row with
  | None => raise TypeError
  | Some folio => ret (Asignacion.mk folio id_doctor id_cama id_sala_dest)
  end
  end
  end.

Definition crear_visita_tx (ahora : string) (payload : Payload.t) (s : BD)
  : Res Asignacion.t * BD * list Sentencia :=
  tx (crear_visita_cuerpo ahora payload) s.

End Crear.

(** ** Closing a visit ([cerrar_visita_tx]) *)

Definition con_cierre (ahora : string) (v : Visita.t) : Visita.t :=
  Visita.mk (Visita.id_visita v) (Visita.folio v) (Visita.id_paciente v)
    (Visita.id_doctor v) (Visita.id_trabajador v) (Visita.id_sala v)
    (Visita.id_cama v) (Visita.origen_solicitud v) (Visita.prioridad v)
    (Visita.motivo v) (Visita.fecha_hora_inicio v) (Some ahora) CERRADA.

Definition con_folio (folio : string) (v : Visita.t) : bool :=
  (Visita.folio v =? folio)%string.

(** A scalar subquery [(SELECT col FROM VISITAS_EMERGENCIA WHERE folio=?)]:
    the column of the first row found, NULL when there is none. *)
Definition subconsulta (col : Visita.t -> Z) (folio : string) (s : BD) : option Z :=
  option_map col (limit_1 (filter (con_folio folio) (VISITAS_EMERGENCIA s))).

(** [columna = (subquery)]: never true against NULL. *)
Definition igual_a (x : Z) (sub : option Z) : bool :=
  match sub with Some y => x =? y | None => false end.

(** [UPDATE VISITAS_EMERGENCIA SET estado='CERRADA', fecha_hora_cierre=?
     WHERE folio=? AND estado='ABIERTA']. *)
Definition cerrar_visita (ahora folio : string) (s : BD) : BD * nat :=
  let (vs, n) :=
    sql_update (fun v => con_folio folio v && abierta v) (con_cierre ahora)
               (VISITAS_EMERGENCIA s) in
  (mkBD (DOCTORES s) (CAMAS s) vs, n).

(** [UPDATE DOCTORES SET disponible=1 WHERE id_doctor = (SELECT id_doctor ...)]. *)
Definition liberar_doctor_de_visita (folio : string) (s : BD) : BD * nat :=
  let (ds, n) :=
    sql_update (fun d => igual_a (Doctor.id_doctor d)
                           (subconsulta Visita.id_doctor folio s))
               (con_disponible true) (DOCTORES s) in
  (mkBD ds (CAMAS s) (VISITAS_EMERGENCIA s), n).

(** [UPDATE CAMAS SET estado='LIBRE'
     WHERE id_cama = (SELECT id_cama ...) AND id_sala = (SELECT id_sala ...)]. *)
Definition liberar_cama_de_visita (folio : string) (s : BD) : BD * nat :=
  let (cs, n) :=
    sql_update (fun c => igual_a (Cama.id_cama c) (subconsulta Visita.id_cama folio s)
                         && igual_a (Cama.id_sala c) (subconsulta Visita.id_sala folio s))
               (con_estado LIBRE) (CAMAS s) in
  (mkBD (DOCTORES s) cs (VISITAS_EMERGENCIA s), n).

(** Only the cursor of the first UPDATE is read; the function returns
    [None]. *)
Definition cerrar_visita_cuerpo (ahora folio : string) : Tx unit :=
  rowcount <- escribir (UPDATE_cerrar_visita folio) (cerrar_visita ahora folio) ;;
  if negb (rowcount =? 1)%nat then raise Visita_no_encontrada_o_cerrada else
  escribir (UPDATE_liberar_doctor_de_visita folio) (liberar_doctor_de_visita folio) ;;;
  escribir (UPDATE_liberar_cama_de_visita folio) (liberar_cama_de_visita folio) ;;;
  ret tt.

Definition cerrar_visita_tx (ahora folio : string) (s : BD)
  : Res unit * BD * list Sentencia :=
  tx (cerrar_visita_cuerpo ahora folio) s.

(** ** The properties the transactions are checked against *)

(** Counts of the conservation property: doctors that are not available,
    distinct doctors referenced by open visits, beds that are occupied and
    distinct (room, bed) pairs referenced by open visits. *)
Definition clave_cama (c : Cama.t) : Z * Z := (Cama.id_sala c, Cama.id_cama c).

Definition cama_de (v : Visita.t) : Z * Z := (Visita.id_sala v, Visita.id_cama v).

Definition no_disponible (d : Doctor.t) : bool := negb (Doctor.disponible d).

Definition ocupada (c : Cama.t) : bool := negb (libre c).

Definition par_eq_dec (x y : Z * Z) : {x = y} + {x <> y}.
Proof. decide equality; apply Z.eq_dec. Defined.

Definition abiertas (s : BD) : list Visita.t := filter abierta (VISITAS_EMERGENCIA s).

Definition doctores_en_abiertas (s : BD) : list Z :=
  nodup Z.eq_dec (map Visita.id_doctor (abiertas s)).

Definition camas_en_abiertas (s : BD) : list (Z * Z) :=
  nodup par_eq_dec (map cama_de (abiertas s)).

Definition conservacion (s : BD) : Prop :=
  List.length (filter no_disponible (DOCTORES s)) = List.length (doctores_en_abiertas s)
  /\ List.length (filter ocupada (CAMAS s)) = List.length (camas_en_abiertas s).

(** The coupling between visits and resources: identities are keys, an open
    visit holds an existing doctor that is not available and an existing bed
    that is occupied, no two open visits hold the same doctor or the same
    bed, and every doctor that is not available and every occupied bed is
    held by an open visit. *)
Record invariante (s : BD) : Prop := {
  inv_doctores : NoDup (map Doctor.id_doctor (DOCTORES s));
  inv_camas : NoDup (map clave_cama (CAMAS s));
  inv_folios : NoDup (map Visita.folio (VISITAS_EMERGENCIA s));
  inv_doctor_tomado : forall v, In v (abiertas s) ->
    exists d, In d (DOCTORES s) /\ Doctor.id_doctor d = Visita.id_doctor v
              /\ Doctor.disponible d = false;
  inv_cama_tomada : forall v, In v (abiertas s) ->
    exists c, In c (CAMAS s) /\ clave_cama c = cama_de v /\ Cama.estado c = OCUPADA;
  inv_doctor_exclusivo : NoDup (map Visita.id_doctor (abiertas s));
  inv_cama_exclusiva : NoDup (map cama_de (abiertas s));
  inv_doctor_en_visita : forall d, In d (DOCTORES s) -> Doctor.disponible d = false ->
    exists v, In v (abiertas s) /\ Visita.id_doctor v = Doctor.id_doctor d;
  inv_cama_en_visita : forall c, In c (CAMAS s) -> Cama.estado c = OCUPADA ->
    exists v, In v (abiertas s) /\ cama_de v = clave_cama c }.

(** The first required key that [payload] lacks, in the order in which the
    INSERT parameters are built. *)
Definition primera_faltante (p : Payload.t) : option string :=
  match Payload.id_paciente p, Payload.id_trabajador p, Payload.origen_solicitud p with
  | None, _, _ => Some "id_paciente"
  | Some _, None, _ => Some "id_trabajador"
  | Some _, Some _, None => Some "origen_solicitud"
  | Some _, Some _, Some _ => None
  end.

(** The integers of [payload] that the INSERT binds fit a SQLite INTEGER. *)
Definition payload_enlazable (p : Payload.t) : bool :=
  enlazable (get (Payload.id_paciente p) 0)
  && enlazable (get (Payload.id_trabajador p) 0)
  && enlazable (int (get (Payload.prioridad p) 3)).

(** Statements that read or write a table. *)
Definition toca_tablas (st : Sentencia) : bool :=
  match st with
  | PRAGMA_foreign_keys | BEGIN_IMMEDIATE | COMMIT | ROLLBACK => false
  | _ => true
  end.

(** Both claims of [_ocupar_recursos] would take exactly one row. *)
Definition reclamo_posible (s : BD) (id_doctor id_cama id_sala : Z) : Prop :=
  q_doctor_disponible s = Some id_doctor /\ id_doctor <> 0
  /\ q_cama_libre s = Some (id_cama, id_sala) /\ id_cama <> 0
  /\ snd (ocupar_doctor id_doctor s) = 1%nat
  /\ snd (ocupar_cama id_cama id_sala s) = 1%nat.

(** ** Example databases *)

Definition folio_ejemplo (_ : BD) (rowid : Z) : string :=
  String.append "F" (DecimalString.NilZero.string_of_int (Z.to_int rowid)).

(** One eligible doctor and one free bed. *)
Definition bd_A : BD :=
  mkBD [Doctor.mk 1 true true] [Cama.mk 1 1 LIBRE] [].

Definition payload_A : Payload.t :=
  Payload.mk (Some 1) (Some 9) (Some "walk-in") None None.

Definition payload_sin_paciente : Payload.t :=
  Payload.mk None (Some 9) (Some "walk-in") None None.

Definition visita_A : Visita.t :=
  Visita.mk 1 "F1" 1 1 9 1 1 "walk-in" 3 "" "2024-05-01T10:00:00" None ABIERTA.

(** [bd_A] after the visit [visita_A] was opened. *)
Definition bd_A_abierta : BD :=
  mkBD [Doctor.mk 1 true false] [Cama.mk 1 1 OCUPADA] [visita_A].

Definition bd_vacia : BD := mkBD [] [] [].

(** The only eligible doctor has identity 0. *)
Definition bd_doctor_0 : BD :=
  mkBD [Doctor.mk 0 true true] [Cama.mk 1 1 LIBRE] [].

(** The only free bed has identity 0. *)
Definition bd_cama_0 : BD :=
  mkBD [Doctor.mk 1 true true] [Cama.mk 0 1 LIBRE] [].

(** Two rows for the same free bed: the bed claim takes two rows. *)
Definition bd_cama_repetida : BD :=
  mkBD [Doctor.mk 1 true true] [Cama.mk 1 1 LIBRE; Cama.mk 1 1 LIBRE] [].

(** The counts of [conservacion] agree, but the open visit holds doctor 1 and
    bed 1 of room 1, which are available and free, while doctor 2 and bed 2
    are held by nobody. *)
Definition bd_desacoplada : BD :=
  mkBD [Doctor.mk 1 true true; Doctor.mk 2 true false]
       [Cama.mk 1 1 LIBRE; Cama.mk 2 1 OCUPADA]
       [visita_A].

(** Doctor 1 and bed 1 of room 1 are held by the open visit [visita_A];
    doctor 2 and bed 2 of room 1 can be claimed. *)
Definition bd_B : BD :=
  mkBD [Doctor.mk 1 true false; Doctor.mk 2 true true]
       [Cama.mk 1 1 OCUPADA; Cama.mk 2 1 LIBRE]
       [visita_A].

(** A visit of a doctor, open or closed. *)
Definition visita_ejemplo (rowid : Z) (folio : string) (id_doctor : Z)
    (estado : EstadoVisita) : Visita.t :=
  Visita.mk rowid folio 1 id_doctor 9 1 1 "walk-in" 3 "" "2024-05-01T10:00:00"
    (match estado with ABIERTA => None | CERRADA => Some "2024-05-01T11:00:00" end)
    estado.

(** Two active, available doctors with unequal loads: doctor 1, first in the
    table, has two open visits; doctor 2 has one open visit and two closed
    ones. *)
Definition bd_cargas : BD :=
  mkBD [Doctor.mk 1 true true; Doctor.mk 2 true true] []
       [visita_ejemplo 1 "F1" 1 ABIERTA; visita_ejemplo 2 "F2" 1 ABIERTA;
        visita_ejemplo 3 "F3" 2 ABIERTA; visita_ejemplo 4 "F4" 2 CERRADA;
        visita_ejemplo 5 "F5" 2 CERRADA].

(** A payload with every key. *)
Definition payload_completo : Payload.t :=
  Payload.mk (Some 1) (Some 9) (Some "walk-in") (Some 1) (Some "dolor toracico").

(** A payload whose priority does not fit a SQLite INTEGER. *)
Definition payload_prioridad_enorme : Payload.t :=
  Payload.mk (Some 1) (Some 9) (Some "walk-in") (Some (2 ^ 63)) None.

(** An open visit whose doctor and bed rows do not exist. *)
Definition bd_sin_recursos : BD := mkBD [] [] [visita_A].

(** The database inside the transaction once a visit was closed and its
    doctor and bed released. *)
Definition cerrada (ahora folio : string) (s : BD) : BD :=
  fst (liberar_cama_de_visita folio
         (fst (liberar_doctor_de_visita folio (fst (cerrar_visita ahora folio s))))).

(** [bd_A_abierta] after the visit was closed. *)
Definition bd_A_cerrada : BD :=
  mkBD [Doctor.mk 1 true true] [Cama.mk 1 1 LIBRE]
       [con_cierre "2024-05-01T11:00:00" visita_A].

(** A required key of [payload] is missing and [crear_visita_tx] notices it
    before it touches the store: it raises the [KeyError] of that key, the
    database is the initial one, and no statement that reads or writes a
    table was executed. *)
Definition validacion_previa (genera_folio : BD -> Z -> string) (ahora : string)
    (p : Payload.t) (s : BD) : Prop :=
  exists k, primera_faltante p = Some k
    /\ let '(r, s', tr) := crear_visita_tx genera_folio ahora p s in
       r = Raise (KeyError k) /\ s' = s /\ existsb toca_tablas tr = false.

(** ** Listing the open visits ([get_visitas_abiertas]) *)

(** A row of the listing: the eight columns of its SELECT. *)
Module FilaAbierta.
Record t := mk {
  folio : string;
  id_paciente : Z;
  id_doctor : Z;
  id_sala : Z;
  id_cama : Z;
  prioridad : Z;
  motivo : string;
  fecha_hora_inicio : string }.
End FilaAbierta.

Definition fila_de (v : Visita.t) : FilaAbierta.t :=
  FilaAbierta.mk (Visita.folio v) (Visita.id_paciente v) (Visita.id_doctor v)
    (Visita.id_sala v) (Visita.id_cama v) (Visita.prioridad v) (Visita.motivo v)
    (Visita.fecha_hora_inicio v).

(** [ORDER BY fecha_hora_inicio DESC], on text. *)
Definition mas_reciente (v1 v2 : Visita.t) : bool :=
  String.leb (Visita.fecha_hora_inicio v2) (Visita.fecha_hora_inicio v1).

(** [SELECT folio, ..., fecha_hora_inicio FROM VISITAS_EMERGENCIA
     WHERE estado='ABIERTA' ORDER BY fecha_hora_inicio DESC], [fetchall()]. *)
Definition get_visitas_abiertas (s : BD) : list FilaAbierta.t :=
  map fila_de (order_by mas_reciente (filter abierta (VISITAS_EMERGENCIA s))).

(** Two eligible doctors and two free beds, no visit. *)
Definition bd_2 : BD :=
  mkBD [Doctor.mk 1 true true; Doctor.mk 2 true true]
       [Cama.mk 1 1 LIBRE; Cama.mk 2 1 LIBRE] [].

(** The row that a successful [crear_visita_tx] inserts. *)
Definition visita_nueva (genera_folio : BD -> Z -> string) (ahora : string)
    (p : Payload.t) (id_doctor id_cama id_sala : Z) (s : BD) : Visita.t :=
  let rowid := siguiente_rowid (VISITAS_EMERGENCIA s) in
  Visita.mk rowid (genera_folio (reclamados id_doctor id_cama id_sala s) rowid)
    (get (Payload.id_paciente p) 0) id_doctor (get (Payload.id_trabajador p) 0)
    id_sala id_cama (get (Payload.origen_solicitud p) "")
    (int (get (Payload.prioridad p) 3)) (get (Payload.motivo p) "") ahora None ABIERTA.

(** * Properties *)

(** ** Facts about the SQL fragment *)

Section SQL_facts.
Variable A : Type.

Lemma sql_update_In (p : A -> bool) (f : A -> A) (t : list A) (r' : A) :
  In r' (fst (sql_update p f t)) <->
  exists r, In r t /\ r' = (if p r then f r else r).
Proof.
  unfold sql_update; simpl. rewrite in_map_iff.
  split; intros [r [H1 H2]]; exists r; auto.
Qed.

Lemma sql_update_clave (K : Type) (k : A -> K) (p : A -> bool) (f : A -> A)
      (t : list A) :
  (forall r, k (f r) = k r) ->
  map k (fst (sql_update p f t)) = map k t.
Proof.
  intros Hk. unfold sql_update; simpl. rewrite map_map.
  apply map_ext. intros r. destruct (p r); auto.
Qed.

Lemma sql_update_ninguna (p : A -> bool) (f : A -> A) (t : list A) :
  (forall r, In r t -> p r = false) ->
  sql_update p f t = (t, 0%nat).
Proof.
  intros Hp. unfold sql_update. f_equal.
  - rewrite <- (map_id t) at 2. apply map_ext_in.
    intros r Hr. now rewrite (Hp r Hr).
  - induction t as [|x t IH]; simpl; auto.
    rewrite (Hp x (or_introl eq_refl)). apply IH.
    intros r Hr. apply Hp. now right.
Qed.

Lemma rowcount_pos (p : A -> bool) (t : list A) :
  (0 < List.length (filter p t))%nat ->
  exists r, In r t /\ p r = true.
Proof.
  destruct (filter p t) as [|r l] eqn:E; simpl; [lia|].
  intros _. exists r. apply filter_In. rewrite E. now left.
Qed.

(** A condition that fixes the key selects at most one row of a table in
    which the key is unique, and exactly one when some row satisfies it. *)
Lemma rowcount_clave (K : Type) (k : A -> K) (a : K) (p : A -> bool)
      (t : list A) :
  NoDup (map k t) ->
  (forall r, p r = true -> k r = a) ->
  (List.length (filter p t) <= 1)%nat.
Proof.
  intros Hnd Hp. induction t as [|x t IH]; simpl; [lia|].
  inversion Hnd as [|? ? Hx Hnd']; subst.
  destruct (p x) eqn:Ex; [|now apply IH].
  simpl. assert (E : filter p t = []).
  { destruct (filter p t) as [|y l] eqn:Ey; auto. exfalso.
    assert (Hy : In y (filter p t)) by (rewrite Ey; now left).
    apply filter_In in Hy. destruct Hy as [Hy1 Hy2].
    apply Hx. rewrite (Hp x Ex), <- (Hp y Hy2). now apply in_map. }
  rewrite E. simpl. lia.
Qed.

Lemma rowcount_clave_1 (K : Type) (k : A -> K) (a : K) (p : A -> bool)
      (t : list A) (r : A) :
  NoDup (map k t) ->
  (forall r, p r = true -> k r = a) ->
  In r t -> p r = true ->
  List.length (filter p t) = 1%nat.
Proof.
  intros Hnd Hp Hr Hpr.
  pose proof (@rowcount_clave K k a p t Hnd Hp) as Hle.
  assert (Hin : In r (filter p t)) by (apply filter_In; auto).
  destruct (filter p t); simpl in *; [contradiction | lia].
Qed.

Lemma NoDup_map_filter (K : Type) (k : A -> K) (p : A -> bool) (t : list A) :
  NoDup (map k t) -> NoDup (map k (filter p t)).
Proof.
  induction t as [|x t IH]; simpl; intros Hnd; [constructor|].
  inversion Hnd as [|? ? Hx Hnd']; subst.
  destruct (p x); simpl; [constructor|]; auto.
  intros Hin. apply Hx. apply in_map_iff in Hin. destruct Hin as [y [Hy1 Hy2]].
  apply filter_In in Hy2. rewrite <- Hy1. apply in_map. tauto.
Qed.

(** In a table where [k] is a key, two rows with the same key are equal. *)
Lemma NoDup_map_inj (K : Type) (k : A -> K) (t : list A) (x y : A) :
  NoDup (map k t) -> In x t -> In y t -> k x = k y -> x = y.
Proof.
  induction t as [|z t IH]; simpl; intros Hnd Hx Hy E; [contradiction|].
  inversion Hnd as [|? ? Hz Hnd']; subst.
  destruct Hx as [Hx|Hx], Hy as [Hy|Hy]; subst; auto.
  - exfalso. apply Hz. rewrite E. now apply in_map.
  - exfalso. apply Hz. rewrite <- E. now apply in_map.
Qed.

Variable leb : A -> A -> bool.

Lemma insertar_In (x y : A) (l : list A) :
  In y (insertar leb x l) <-> y = x \/ In y l.
Proof.
  induction l as [|z l IH]; simpl.
  - intuition.
  - destruct (leb x z); simpl; [intuition|].
    rewrite IH. intuition.
Qed.

Lemma order_by_In (y : A) (l : list A) :
  In y (order_by leb l) <-> In y l.
Proof.
  induction l as [|x l IH]; simpl; [tauto|].
  rewrite insertar_In, IH. intuition.
Qed.

Lemma limit_1_order_by_In (l : list A) (m : A) :
  limit_1 (order_by leb l) = Some m -> In m l.
Proof.
  intros H. apply order_by_In. unfold limit_1 in H.
  destruct (order_by leb l); simpl in H; [discriminate|].
  injection H as ->. now left.
Qed.

Lemma limit_1_order_by_None (l : list A) :
  limit_1 (order_by leb l) = None <-> l = [].
Proof.
  split.
  - intros H. destruct l as [|x l]; auto. exfalso.
    assert (Hx : In x (order_by leb (x :: l))) by (apply order_by_In; now left).
    unfold limit_1 in H. destruct (order_by leb (x :: l)); [contradiction | discriminate].
  - intros ->. reflexivity.
Qed.

Hypothesis leb_total : forall x y, leb x y = true \/ leb y x = true.
Hypothesis leb_trans : forall x y z, leb x y = true -> leb y z = true -> leb x z = true.

(** The first row of [ORDER BY] is least among the rows. *)
Lemma limit_1_order_by_min (l : list A) (m : A) :
  limit_1 (order_by leb l) = Some m ->
  forall y, In y l -> leb m y = true.
Proof.
  unfold limit_1. revert m. induction l as [|x l IH]; simpl; intros m Hm y Hy.
  - contradiction.
  - destruct (order_by leb l) as [|z r] eqn:E; simpl in Hm.
    + injection Hm as <-.
      destruct Hy as [<-|Hy]; [destruct (leb_total x x); auto|].
      apply (order_by_In y) in Hy. rewrite E in Hy. contradiction.
    + specialize (IH z eq_refl).
      destruct (leb x z) eqn:Exz; simpl in Hm; injection Hm as <-.
      * destruct Hy as [<-|Hy]; [destruct (leb_total x x); auto|].
        apply leb_trans with z; auto.
      * assert (Hzx : leb z x = true).
        { destruct (leb_total x z) as [H|H]; [congruence | exact H]. }
        destruct Hy as [<-|Hy]; auto.
Qed.
End SQL_facts.

(** ** Symbolic execution of the two transactions *)

Lemma max_rowid_cota (vs : list Visita.t) (x : Visita.t) :
  In x vs -> exists m, max_rowid vs = Some m /\ Visita.id_visita x <= m.
Proof.
  induction vs as [|v vs IH]; simpl; [contradiction|].
  intros [<-|Hx].
  - destruct (max_rowid vs) as [m|]; eexists; split; eauto; lia.
  - destruct (IH Hx) as [m [E Hm]]. rewrite E.
    eexists; split; eauto; lia.
Qed.

Lemma siguiente_rowid_nuevo (vs : list Visita.t) (x : Visita.t) :
  In x vs -> Visita.id_visita x < siguiente_rowid vs.
Proof.
  intros Hx. destruct (max_rowid_cota vs x Hx) as [m [E Hm]].
  unfold siguiente_rowid. rewrite E. lia.
Qed.

(** The row read back after the INSERT is the row that was inserted. *)
Lemma q_folio_de_insertada ds cs vs (v : Visita.t) :
  Visita.id_visita v = siguiente_rowid vs ->
  q_folio_de (siguiente_rowid vs) (mkBD ds cs (vs ++ [v])) = Some (Visita.folio v).
Proof.
  intros Hv. unfold q_folio_de; simpl. rewrite filter_app.
  assert (E : filter (fun x => Visita.id_visita x =? siguiente_rowid vs) vs = []).
  { destruct (filter _ vs) as [|y l] eqn:Ey; auto. exfalso.
    assert (Hy : In y (filter (fun x => Visita.id_visita x =? siguiente_rowid vs) vs))
      by (rewrite Ey; now left).
    apply filter_In in Hy. destruct Hy as [Hy1 Hy2].
    apply Z.eqb_eq in Hy2. pose proof (siguiente_rowid_nuevo vs y Hy1). lia. }
  rewrite E. simpl. rewrite Hv, Z.eqb_refl. reflexivity.
Qed.

Ltac reducir :=
  cbn [bd traza app fst snd negb get DOCTORES CAMAS VISITAS_EMERGENCIA].

Section Ejecucion.
Variable genera_folio : BD -> Z -> string.
Variables (ahora : string) (payload : Payload.t).

Lemma crear_visita_tx_eq (s : BD) :
  crear_visita_tx genera_folio ahora payload s =
  let t0 := [PRAGMA_foreign_keys; BEGIN_IMMEDIATE; SELECT_doctor_disponible] in
  match q_doctor_disponible s with
  | None => (Raise No_hay_doctor_disponible, s, t0 ++ [ROLLBACK])
  | Some d =>
    if d =? 0 then (Raise No_hay_doctor_disponible, s, t0 ++ [ROLLBACK]) else
    match q_cama_libre s with
    | None => (Raise No_hay_camas_libres, s, t0 ++ [SELECT_cama_libre; ROLLBACK])
    | Some (c, sa) =>
      if c =? 0
      then (Raise No_hay_camas_libres, s, t0 ++ [SELECT_cama_libre; ROLLBACK]) else
      if negb (snd (ocupar_doctor d s) =? 1)%nat
      then (Raise Recursos_tomados, s,
            t0 ++ [SELECT_cama_libre; UPDATE_ocupar_doctor d; ROLLBACK]) else
      if negb (snd (ocupar_cama c sa s) =? 1)%nat
      then (Raise Recursos_tomados, s,
            t0 ++ [SELECT_cama_libre; UPDATE_ocupar_doctor d; UPDATE_ocupar_cama c sa;
                   UPDATE_liberar_doctor d; ROLLBACK]) else
      let t1 := t0 ++ [SELECT_cama_libre; UPDATE_ocupar_doctor d;
                       UPDATE_ocupar_cama c sa] in
      match primera_faltante payload with
      | Some k => (Raise (KeyError k), s, t1 ++ [ROLLBACK])
      | None =>
        if negb (payload_enlazable payload)
        then (Raise OverflowError, s, t1 ++ [ROLLBACK]) else
        let s2 := reclamados d c sa s in
        let rowid := siguiente_rowid (VISITAS_EMERGENCIA s) in
        (Ok (Asignacion.mk (genera_folio s2 rowid) d c sa),
         fst (insertar_visita genera_folio
                (get (Payload.id_paciente payload) 0) d
                (get (Payload.id_trabajador payload) 0) sa c
                (get (Payload.origen_solicitud payload) "")
                (int (get (Payload.prioridad payload) 3))
                (get (Payload.motivo payload) "") ahora s2),
         t1 ++ [INSERT_visita; SELECT_folio_insertado; COMMIT])
      end
    end
  end.
Proof.
  unfold crear_visita_tx, tx, crear_visita_cuerpo, _seleccionar_doctor_disponible,
    _seleccionar_cama_libre, _ocupar_recursos, bind, consultar, escribir, ret, raise,
    reclamados, ocupar_doctor, ocupar_cama, liberar_doctor, sql_update.
  cbv zeta. reducir.
  destruct (q_doctor_disponible s) as [d|]; [|reflexivity].
  destruct (d =? 0); [reflexivity|]. reducir.
  destruct (q_cama_libre s) as [[c sa]|]; [|reflexivity].
  destruct (c =? 0); [reflexivity|]. reducir.
  destruct (negb (_ =? 1)%nat); [reflexivity|]. reducir.
  destruct (negb (_ =? 1)%nat); [reflexivity|]. reducir.
  unfold primera_faltante, payload_enlazable, item, ret, raise.
  destruct (Payload.id_paciente payload) as [pac|]; [|reflexivity].
  destruct (Payload.id_trabajador payload) as [trab|]; [|reflexivity].
  destruct (Payload.origen_solicitud payload) as [orig|]; [|reflexivity].
  cbv zeta. reducir.
  destruct (negb _); [reflexivity|].
  unfold insertar_visita. reducir.
  rewrite q_folio_de_insertada by reflexivity.
  reflexivity.
Qed.
End Ejecucion.

Lemma cerrar_visita_tx_eq (ahora folio : string) (s : BD) :
  cerrar_visita_tx ahora folio s =
  if negb (snd (cerrar_visita ahora folio s) =? 1)%nat
  then (Raise Visita_no_encontrada_o_cerrada, s,
        [PRAGMA_foreign_keys; BEGIN_IMMEDIATE; UPDATE_cerrar_visita folio; ROLLBACK])
  else (Ok tt, cerrada ahora folio s,
        [PRAGMA_foreign_keys; BEGIN_IMMEDIATE; UPDATE_cerrar_visita folio;
         UPDATE_liberar_doctor_de_visita folio; UPDATE_liberar_cama_de_visita folio;
         COMMIT]).
Proof.
  unfold cerrar_visita_tx, tx, cerrar_visita_cuerpo, bind, escribir, ret, raise,
    cerrada, cerrar_visita, liberar_doctor_de_visita, liberar_cama_de_visita, sql_update.
  reducir.
  destruct (negb (_ =? 1)%nat); reflexivity.
Qed.

(** ** Opening: what a success and a failure look like *)

Section Crear_facts.
Variable genera_folio : BD -> Z -> string.
Variables (ahora : string) (payload : Payload.t).

Lemma crear_visita_tx_falla s e s' tr :
  crear_visita_tx genera_folio ahora payload s = (Raise e, s', tr) -> s' = s.
Proof.
  unfold crear_visita_tx, tx.
  destruct (crear_visita_cuerpo genera_folio ahora payload _) as [[a|e'] c];
    intros H; inversion H; reflexivity.
Qed.

Lemma crear_visita_tx_exito s d c sa :
  reclamo_posible s d c sa ->
  primera_faltante payload = None /\ payload_enlazable payload = true ->
  crear_visita_tx genera_folio ahora payload s =
  (Ok (Asignacion.mk (Visita.folio (visita_nueva genera_folio ahora payload d c sa s))
                     d c sa),
   mkBD (DOCTORES (reclamados d c sa s)) (CAMAS (reclamados d c sa s))
        (VISITAS_EMERGENCIA s ++ [visita_nueva genera_folio ahora payload d c sa s]),
   [PRAGMA_foreign_keys; BEGIN_IMMEDIATE; SELECT_doctor_disponible; SELECT_cama_libre;
    UPDATE_ocupar_doctor d; UPDATE_ocupar_cama c sa; INSERT_visita;
    SELECT_folio_insertado; COMMIT]).
Proof.
  intros (Hd & Hd0 & Hc & Hc0 & Hn1 & Hn2) [Hp He].
  rewrite crear_visita_tx_eq. cbv zeta.
  rewrite Hd, Hc, Hn1, Hn2, Hp, He.
  apply Z.eqb_neq in Hd0, Hc0. rewrite Hd0, Hc0.
  reflexivity.
Qed.

Lemma crear_visita_tx_exito_inv s a s' tr :
  crear_visita_tx genera_folio ahora payload s = (Ok a, s', tr) ->
  exists d c sa,
    reclamo_posible s d c sa
    /\ (primera_faltante payload = None /\ payload_enlazable payload = true).
Proof.
  rewrite crear_visita_tx_eq. cbv zeta. unfold reclamo_posible.
  destruct (q_doctor_disponible s) as [d|]; [|discriminate].
  destruct (d =? 0) eqn:Ed; [discriminate|].
  destruct (q_cama_libre s) as [[c sa]|]; [|discriminate].
  destruct (c =? 0) eqn:Ec; [discriminate|].
  destruct (snd (ocupar_doctor d s) =? 1)%nat eqn:En1; [|discriminate].
  destruct (snd (ocupar_cama c sa s) =? 1)%nat eqn:En2; [|discriminate].
  cbn [negb].
  destruct (primera_faltante payload); [discriminate|].
  destruct (payload_enlazable payload); [|discriminate].
  intros _. exists d, c, sa.
  apply Z.eqb_neq in Ed, Ec. apply Nat.eqb_eq in En1, En2. auto 10.
Qed.
End Crear_facts.

(** The effect of the two claims on the tables. *)

Lemma reclamados_VISITAS d c sa s :
  VISITAS_EMERGENCIA (reclamados d c sa s) = VISITAS_EMERGENCIA s.
Proof. reflexivity. Qed.

Lemma reclamados_claves_doctores d c sa s :
  map Doctor.id_doctor (DOCTORES (reclamados d c sa s)) = map Doctor.id_doctor (DOCTORES s).
Proof.
  unfold reclamados, ocupar_cama, ocupar_doctor, sql_update; reducir.
  rewrite map_map. apply map_ext. intros r. now destruct (_ && _).
Qed.

Lemma reclamados_claves_camas d c sa s :
  map clave_cama (CAMAS (reclamados d c sa s)) = map clave_cama (CAMAS s).
Proof.
  unfold reclamados, ocupar_cama, ocupar_doctor, sql_update; reducir.
  rewrite map_map. apply map_ext. intros r. now destruct (_ && _).
Qed.

Lemma reclamados_doctor_In d c sa s r' :
  In r' (DOCTORES (reclamados d c sa s)) <->
  exists r, In r (DOCTORES s) /\
    r' = if (Doctor.id_doctor r =? d) && Doctor.disponible r
         then con_disponible false r else r.
Proof. apply sql_update_In. Qed.

Lemma reclamados_cama_In d c sa s r' :
  In r' (CAMAS (reclamados d c sa s)) <->
  exists r, In r (CAMAS s) /\
    r' = if es_cama c sa r && libre r then con_estado OCUPADA r else r.
Proof. apply sql_update_In. Qed.

Lemma reclamados_doctor_tomado d c sa s r :
  In r (DOCTORES (reclamados d c sa s)) -> Doctor.id_doctor r = d ->
  Doctor.disponible r = false.
Proof.
  intros Hr Hid. apply reclamados_doctor_In in Hr. destruct Hr as [r0 [_ ->]].
  destruct (Doctor.id_doctor r0 =? d) eqn:E1; destruct (Doctor.disponible r0) eqn:E2;
    simpl in *; auto.
  apply Z.eqb_neq in E1. contradiction.
Qed.

Lemma reclamados_cama_tomada d c sa s r :
  In r (CAMAS (reclamados d c sa s)) -> Cama.id_cama r = c -> Cama.id_sala r = sa ->
  Cama.estado r = OCUPADA.
Proof.
  intros Hr H1 H2. apply reclamados_cama_In in Hr. destruct Hr as [r0 [_ ->]].
  unfold es_cama, libre in *.
  destruct (Cama.id_cama r0 =? c) eqn:E1; destruct (Cama.id_sala r0 =? sa) eqn:E2;
    destruct (Cama.estado r0) eqn:E3; simpl in *; auto;
    try (apply Z.eqb_neq in E1; contradiction);
    try (apply Z.eqb_neq in E2; contradiction).
Qed.

Lemma reclamados_doctor_existe d c sa s :
  snd (ocupar_doctor d s) = 1%nat ->
  exists r, In r (DOCTORES (reclamados d c sa s)) /\ Doctor.id_doctor r = d
            /\ Doctor.disponible r = false.
Proof.
  intros Hn. unfold ocupar_doctor, sql_update in Hn; simpl in Hn.
  destruct (@rowcount_pos _ _ (DOCTORES s) ltac:(rewrite Hn; lia)) as [r0 [Hr0 Hp]].
  exists (con_disponible false r0). split.
  - apply reclamados_doctor_In. exists r0. now rewrite Hp.
  - apply andb_true_iff in Hp. destruct Hp as [Hp _]. apply Z.eqb_eq in Hp. simpl. auto.
Qed.

Lemma reclamados_cama_existe d c sa s :
  snd (ocupar_cama c sa s) = 1%nat ->
  exists r, In r (CAMAS (reclamados d c sa s)) /\ Cama.id_cama r = c
            /\ Cama.id_sala r = sa /\ Cama.estado r = OCUPADA.
Proof.
  intros Hn. unfold ocupar_cama, sql_update in Hn; simpl in Hn.
  destruct (@rowcount_pos _ _ (CAMAS s) ltac:(rewrite Hn; lia)) as [r0 [Hr0 Hp]].
  exists (con_estado OCUPADA r0). split.
  - apply reclamados_cama_In. exists r0. now rewrite Hp.
  - apply andb_true_iff in Hp. destruct Hp as [Hp _]. unfold es_cama in Hp.
    apply andb_true_iff in Hp. destruct Hp as [H1 H2].
    apply Z.eqb_eq in H1, H2. simpl. auto.
Qed.

Lemma _ocupar_recursos_eq d c sa (cn : Conn) :
  _ocupar_recursos d c sa cn =
  if negb (snd (ocupar_doctor d (bd cn)) =? 1)%nat
  then (Ok false, mkConn (fst (ocupar_doctor d (bd cn)))
                         (traza cn ++ [UPDATE_ocupar_doctor d]))
  else if negb (snd (ocupar_cama c sa (bd cn)) =? 1)%nat
  then (Ok false, mkConn (fst (liberar_doctor d (reclamados d c sa (bd cn))))
                         (traza cn ++ [UPDATE_ocupar_doctor d; UPDATE_ocupar_cama c sa;
                                       UPDATE_liberar_doctor d]))
  else (Ok true, mkConn (reclamados d c sa (bd cn))
                        (traza cn ++ [UPDATE_ocupar_doctor d; UPDATE_ocupar_cama c sa])).
Proof.
  unfold _ocupar_recursos, bind, escribir, ret, reclamados, ocupar_doctor, ocupar_cama,
    liberar_doctor, sql_update.
  reducir.
  destruct (negb (_ =? 1)%nat); [reflexivity|]. reducir.
  destruct (negb (_ =? 1)%nat); reducir; rewrite <- !app_assoc; reflexivity.
Qed.

(** The compensating UPDATE gives the doctor back whatever the claims did. *)
Lemma liberar_doctor_efecto d (s : BD) r :
  In r (DOCTORES (fst (liberar_doctor d s))) -> Doctor.id_doctor r = d ->
  Doctor.disponible r = true.
Proof.
  unfold liberar_doctor. intros Hr Hid.
  apply (sql_update_In (fun x => Doctor.id_doctor x =? d)) in Hr.
  destruct Hr as [r0 [_ ->]].
  destruct (Doctor.id_doctor r0 =? d) eqn:E; simpl in *; auto.
  apply Z.eqb_neq in E. contradiction.
Qed.

Lemma liberar_doctor_claves d (s : BD) :
  map Doctor.id_doctor (DOCTORES (fst (liberar_doctor d s))) =
  map Doctor.id_doctor (DOCTORES s).
Proof. unfold liberar_doctor. now apply sql_update_clave. Qed.

(** * The claims *)

(** C1. Whatever [crear_visita_tx] returns, the database it leaves is
    all-or-nothing: when it raises, the database is the initial one; when it
    returns an assignment, the doctor of the assignment exists and is not
    available, its bed exists and is occupied, and the visits are the initial
    ones followed by exactly one new open visit that references them. *)
Theorem C1_crear_visita_todo_o_nada
    (genera_folio : BD -> Z -> string) (ahora : string) (payload : Payload.t) (s : BD) :
  match crear_visita_tx genera_folio ahora payload s with
  | (Raise _, s', _) => s' = s
  | (Ok a, s', _) =>
      (exists d, In d (DOCTORES s') /\ Doctor.id_doctor d = Asignacion.id_doctor a)
      /\ (forall d, In d (DOCTORES s') ->
            Doctor.id_doctor d = Asignacion.id_doctor a -> Doctor.disponible d = false)
      /\ (exists c, In c (CAMAS s') /\ Cama.id_cama c = Asignacion.id_cama a
                    /\ Cama.id_sala c = Asignacion.id_sala a)
      /\ (forall c, In c (CAMAS s') -> Cama.id_cama c = Asignacion.id_cama a ->
            Cama.id_sala c = Asignacion.id_sala a -> Cama.estado c = OCUPADA)
      /\ exists v, VISITAS_EMERGENCIA s' = VISITAS_EMERGENCIA s ++ [v]
                   /\ Visita.estado v = ABIERTA
                   /\ Visita.folio v = Asignacion.folio a
                   /\ Visita.id_doctor v = Asignacion.id_doctor a
                   /\ Visita.id_cama v = Asignacion.id_cama a
                   /\ Visita.id_sala v = Asignacion.id_sala a
  end.
Proof.
  destruct (crear_visita_tx genera_folio ahora payload s) as [[[a|e] s'] tr] eqn:E.
  - destruct (crear_visita_tx_exito_inv _ _ _ _ E) as (d & c & sa & Hr & Hp).
    rewrite (crear_visita_tx_exito genera_folio ahora payload Hr Hp) in E.
    inversion E; subst; clear E. cbn [DOCTORES CAMAS VISITAS_EMERGENCIA
      Asignacion.id_doctor Asignacion.id_cama Asignacion.id_sala Asignacion.folio].
    destruct Hr as (_ & _ & _ & _ & Hn1 & Hn2).
    repeat split.
    + destruct (reclamados_doctor_existe d c sa s Hn1) as (r & Hr & Hid & _). eauto.
    + intros r. exact (@reclamados_doctor_tomado d c sa s r).
    + destruct (reclamados_cama_existe d c sa s Hn2) as (r & Hr & H1 & H2 & _). eauto.
    + intros r. exact (@reclamados_cama_tomada d c sa s r).
    + eexists. split; [reflexivity|]. simpl. auto.
  - apply (crear_visita_tx_falla _ _ _ _ E).
Qed.

(** C5. In [crear_visita_tx], when the UPDATE that claims the doctor takes
    exactly one row and the UPDATE that claims the bed takes a number of rows
    other than one, [_ocupar_recursos] issues, as its last statement, the
    unconditional UPDATE that sets [disponible=1] on that doctor, so that
    every row of that doctor is available again, and returns [False];
    [crear_visita_tx] then raises "Recursos tomados, reintente". *)
Theorem C5_compensacion_del_doctor (id_doctor id_cama id_sala : Z) (s : BD) :
  snd (ocupar_doctor id_doctor s) = 1%nat ->
  snd (ocupar_cama id_cama id_sala s) <> 1%nat ->
  (forall tr0,
      let (r, c') := _ocupar_recursos id_doctor id_cama id_sala (mkConn s tr0) in
      r = Ok false
      /\ traza c' = tr0 ++ [UPDATE_ocupar_doctor id_doctor;
                            UPDATE_ocupar_cama id_cama id_sala;
                            UPDATE_liberar_doctor id_doctor]
      /\ (exists d, In d (DOCTORES (bd c')) /\ Doctor.id_doctor d = id_doctor)
      /\ (forall d, In d (DOCTORES (bd c')) -> Doctor.id_doctor d = id_doctor ->
            Doctor.disponible d = true))
  /\ (forall genera_folio ahora payload,
        q_doctor_disponible s = Some id_doctor -> id_doctor <> 0 ->
        q_cama_libre s = Some (id_cama, id_sala) -> id_cama <> 0 ->
        crear_visita_tx genera_folio ahora payload s =
        (Raise Recursos_tomados, s,
         [PRAGMA_foreign_keys; BEGIN_IMMEDIATE; SELECT_doctor_disponible;
          SELECT_cama_libre; UPDATE_ocupar_doctor id_doctor;
          UPDATE_ocupar_cama id_cama id_sala; UPDATE_liberar_doctor id_doctor;
          ROLLBACK])).
Proof.
  intros Hn1 Hn2. split.
  - intros tr0. rewrite _ocupar_recursos_eq. reducir.
    rewrite Hn1. apply Nat.eqb_neq in Hn2. rewrite Hn2. reducir.
    split; [reflexivity|]. split; [reflexivity|]. split.
    + destruct (reclamados_doctor_existe id_doctor id_cama id_sala s Hn1)
        as (r & Hr & Hid & _).
      apply (in_map Doctor.id_doctor) in Hr.
      rewrite <- (liberar_doctor_claves id_doctor) in Hr.
      apply in_map_iff in Hr. destruct Hr as (r' & E & Hr'). exists r'. split; [exact Hr' | congruence].
    + intros d. apply liberar_doctor_efecto.
  - intros genera_folio ahora payload Hd Hd0 Hc Hc0.
    rewrite crear_visita_tx_eq. cbv zeta. rewrite Hd, Hc, Hn1.
    apply Z.eqb_neq in Hd0, Hc0. apply Nat.eqb_neq in Hn2.
    rewrite Hd0, Hc0, Hn2. reflexivity.
Qed.

Lemma C5_compensacion_del_doctor_testigo :
  snd (ocupar_doctor 1 bd_cama_repetida) = 1%nat
  /\ snd (ocupar_cama 1 1 bd_cama_repetida) <> 1%nat
  /\ crear_visita_tx folio_ejemplo "2024-05-01T10:00:00" payload_A bd_cama_repetida =
     (Raise Recursos_tomados, bd_cama_repetida,
      [PRAGMA_foreign_keys; BEGIN_IMMEDIATE; SELECT_doctor_disponible;
       SELECT_cama_libre; UPDATE_ocupar_doctor 1; UPDATE_ocupar_cama 1 1;
       UPDATE_liberar_doctor 1; ROLLBACK]).
Proof.
  split; [reflexivity|]. split; [discriminate|].
  apply (proj2 (@C5_compensacion_del_doctor 1 1 1 bd_cama_repetida
                  eq_refl ltac:(discriminate))
               folio_ejemplo "2024-05-01T10:00:00" payload_A eq_refl
               ltac:(discriminate) eq_refl ltac:(discriminate)).
Defined.

(** ** Selection *)

Lemma menos_cargado_total (s : BD) (x y : Doctor.t) :
  menos_cargado s x y = true \/ menos_cargado s y x = true.
Proof.
  unfold menos_cargado.
  destruct (Nat.le_ge_cases (visitas_abiertas_de s x) (visitas_abiertas_de s y)) as [H|H];
    [left | right]; now apply Nat.leb_le.
Qed.

Lemma menos_cargado_trans (s : BD) (x y z : Doctor.t) :
  menos_cargado s x y = true -> menos_cargado s y z = true ->
  menos_cargado s x z = true.
Proof.
  unfold menos_cargado. rewrite !Nat.leb_le. intros. etransitivity; eauto.
Qed.

Lemma q_doctor_disponible_Some (s : BD) (i : Z) :
  q_doctor_disponible s = Some i ->
  exists d, In d (DOCTORES s) /\ Doctor.id_doctor d = i /\ elegible d = true
    /\ forall d', In d' (DOCTORES s) -> elegible d' = true ->
                  (visitas_abiertas_de s d <= visitas_abiertas_de s d')%nat.
Proof.
  unfold q_doctor_disponible.
  destruct (limit_1 _) as [d|] eqn:E; [|discriminate].
  simpl. intros [= <-].
  pose proof (limit_1_order_by_In _ _ E) as Hin. apply filter_In in Hin.
  exists d. repeat split; try tauto.
  intros d' Hd' He'. apply Nat.leb_le.
  apply (@limit_1_order_by_min _ (menos_cargado s) (menos_cargado_total s)
             (@menos_cargado_trans s) _ _ E).
  apply filter_In. auto.
Qed.

Lemma q_doctor_disponible_None (s : BD) :
  q_doctor_disponible s = None <->
  forall d, In d (DOCTORES s) -> elegible d = false.
Proof.
  unfold q_doctor_disponible. split.
  - destruct (limit_1 _) as [d|] eqn:E; [discriminate|]. intros _ d Hd.
    apply limit_1_order_by_None in E.
    destruct (elegible d) eqn:He; auto.
    assert (Hin : In d (filter elegible (DOCTORES s))) by (apply filter_In; auto).
    rewrite E in Hin. contradiction.
  - intros H.
    assert (E : filter elegible (DOCTORES s) = []).
    { destruct (filter elegible (DOCTORES s)) as [|d l] eqn:E; auto.
      assert (Hin : In d (filter elegible (DOCTORES s))) by (rewrite E; now left).
      apply filter_In in Hin. rewrite (H d) in Hin; [intuition discriminate | tauto]. }
    rewrite E. reflexivity.
Qed.

Lemma q_cama_libre_Some (s : BD) (c sa : Z) :
  q_cama_libre s = Some (c, sa) ->
  exists r, In r (CAMAS s) /\ Cama.id_cama r = c /\ Cama.id_sala r = sa
            /\ Cama.estado r = LIBRE.
Proof.
  unfold q_cama_libre.
  destruct (limit_1 _) as [r|] eqn:E; [|discriminate].
  simpl. intros [= <- <-].
  pose proof (limit_1_order_by_In _ _ E) as Hin. apply filter_In in Hin.
  exists r. repeat split; try tauto.
  destruct Hin as [_ Hl]. unfold libre in Hl. now destruct (Cama.estado r).
Qed.

Lemma q_cama_libre_None (s : BD) :
  q_cama_libre s = None <-> forall c, In c (CAMAS s) -> libre c = false.
Proof.
  unfold q_cama_libre. split.
  - destruct (limit_1 _) as [d|] eqn:E; [discriminate|]. intros _ c Hc.
    apply limit_1_order_by_None in E.
    destruct (libre c) eqn:He; auto.
    assert (Hin : In c (filter libre (CAMAS s))) by (apply filter_In; auto).
    rewrite E in Hin. contradiction.
  - intros H.
    assert (E : filter libre (CAMAS s) = []).
    { destruct (filter libre (CAMAS s)) as [|d l] eqn:E; auto.
      assert (Hin : In d (filter libre (CAMAS s))) by (rewrite E; now left).
      apply filter_In in Hin. rewrite (H d) in Hin; [intuition discriminate | tauto]. }
    rewrite E. reflexivity.
Qed.

(** C7. On every connection [_seleccionar_doctor_disponible] executes one
    SELECT and leaves the database as it was; it returns the identity of a
    doctor that is active and available and whose number of OPEN visits (the
    visits that reference the doctor and have [estado] ABIERTA) is least among
    the active and available doctors, or [None] when no doctor is both active
    and available. *)
Theorem C7_seleccionar_doctor_disponible (cn : Conn) :
  let (r, cn') := _seleccionar_doctor_disponible cn in
  let visitas_OPEN := fun x : Doctor.t =>
    List.length
      (filter (fun v => (Visita.id_doctor v =? Doctor.id_doctor x)
                        && match Visita.estado v with
                           | ABIERTA => true
                           | CERRADA => false
                           end)
              (VISITAS_EMERGENCIA (bd cn))) in
  bd cn' = bd cn
  /\ traza cn' = traza cn ++ [SELECT_doctor_disponible]
  /\ match r with
     | Ok (Some i) =>
         exists d, In d (DOCTORES (bd cn)) /\ Doctor.id_doctor d = i
           /\ Doctor.activo d = true /\ Doctor.disponible d = true
           /\ forall d', In d' (DOCTORES (bd cn)) ->
                Doctor.activo d' = true -> Doctor.disponible d' = true ->
                (visitas_OPEN d <= visitas_OPEN d')%nat
     | Ok None =>
         forall d, In d (DOCTORES (bd cn)) ->
                   ~ (Doctor.activo d = true /\ Doctor.disponible d = true)
     | Raise _ => False
     end.
Proof.
  unfold _seleccionar_doctor_disponible, consultar. reducir. cbv zeta.
  split; [reflexivity|]. split; [reflexivity|].
  destruct (q_doctor_disponible (bd cn)) as [i|] eqn:E.
  - destruct (q_doctor_disponible_Some _ E) as (d & Hd & Hid & He & Hmin).
    unfold elegible in He. apply andb_true_iff in He.
    exists d. repeat split; try tauto.
    intros d' Hd' Ha Hv.
    assert (He' : elegible d' = true) by (unfold elegible; now rewrite Ha, Hv).
    exact (Hmin d' Hd' He').
  - intros d Hd [Ha Hv].
    pose proof (proj1 (q_doctor_disponible_None _) E d Hd) as He.
    unfold elegible in He. rewrite Ha, Hv in He. discriminate.
Qed.

(** In [bd_cargas] the doctor selected is doctor 2, with one open visit,
    although doctor 1, with two, comes first in the table and doctor 2 has
    more visits in all. *)
Lemma C7_seleccionar_doctor_disponible_testigo :
  _seleccionar_doctor_disponible (mkConn bd_cargas []) =
    (Ok (Some 2), mkConn bd_cargas [SELECT_doctor_disponible])
  /\ List.length
       (filter (fun v => (Visita.id_doctor v =? 1)
                         && match Visita.estado v with
                            | ABIERTA => true
                            | CERRADA => false
                            end)
               (VISITAS_EMERGENCIA bd_cargas)) = 2%nat
  /\ List.length
       (filter (fun v => (Visita.id_doctor v =? 2)
                         && match Visita.estado v with
                            | ABIERTA => true
                            | CERRADA => false
                            end)
               (VISITAS_EMERGENCIA bd_cargas)) = 1%nat
  /\ let visitas_OPEN := fun x : Doctor.t =>
       List.length
         (filter (fun v => (Visita.id_doctor v =? Doctor.id_doctor x)
                           && match Visita.estado v with
                              | ABIERTA => true
                              | CERRADA => false
                              end)
                 (VISITAS_EMERGENCIA bd_cargas)) in
     exists d, In d (DOCTORES bd_cargas) /\ Doctor.id_doctor d = 2
       /\ Doctor.activo d = true /\ Doctor.disponible d = true
       /\ forall d', In d' (DOCTORES bd_cargas) ->
            Doctor.activo d' = true -> Doctor.disponible d' = true ->
            (visitas_OPEN d <= visitas_OPEN d')%nat.
Proof.
  split; [reflexivity|]. split; [reflexivity|]. split; [reflexivity|].
  exact (proj2 (proj2 (C7_seleccionar_doctor_disponible (mkConn bd_cargas [])))).
Defined.

(** ** Closing: the effect on the three tables *)

Lemma filter_vacio (A : Type) (p : A -> bool) (l : list A) :
  (forall x, In x l -> p x = false) -> filter p l = [].
Proof.
  induction l as [|x l IH]; simpl; intros H; auto.
  rewrite (H x (or_introl eq_refl)). apply IH. intros y Hy. apply H. now right.
Qed.

(** Where folios are unique, the rows of a folio are its one visit. *)
Lemma filter_con_folio (vs : list Visita.t) (v : Visita.t) :
  NoDup (map Visita.folio vs) -> In v vs ->
  filter (con_folio (Visita.folio v)) vs = [v].
Proof.
  induction vs as [|x vs IH]; simpl; intros Hnd Hv; [contradiction|].
  inversion Hnd as [|? ? Hx Hnd']; subst. unfold con_folio at 1.
  destruct Hv as [->|Hv].
  - rewrite String.eqb_refl. f_equal. apply filter_vacio.
    intros y Hy. unfold con_folio. apply String.eqb_neq. intros E.
    apply Hx. rewrite <- E. now apply in_map.
  - destruct (Visita.folio x =? Visita.folio v)%string eqn:E; [|now apply IH].
    apply String.eqb_eq in E. exfalso. apply Hx. rewrite E. now apply in_map.
Qed.

Lemma subconsulta_unica (col : Visita.t -> Z) (s : BD) (v : Visita.t) :
  NoDup (map Visita.folio (VISITAS_EMERGENCIA s)) -> In v (VISITAS_EMERGENCIA s) ->
  subconsulta col (Visita.folio v) s = Some (col v).
Proof.
  intros Hnd Hv. unfold subconsulta. now rewrite filter_con_folio.
Qed.

(** The first UPDATE of [cerrar_visita_tx] changes none of the columns the
    subqueries of the other two read. *)
Lemma subconsulta_cerrar_visita (col : Visita.t -> Z) (ahora folio f : string) (s : BD) :
  (forall v, col (con_cierre ahora v) = col v) ->
  subconsulta col f (fst (cerrar_visita ahora folio s)) = subconsulta col f s.
Proof.
  intros Hcol. unfold subconsulta, cerrar_visita, sql_update, limit_1. reducir.
  set (g := fun v => if con_folio folio v && abierta v then con_cierre ahora v else v).
  assert (Hq : forall x, con_folio f (g x) = con_folio f x)
    by (intros x; unfold g; now destruct (_ && _)).
  assert (Hc : forall x, col (g x) = col x)
    by (intros x; unfold g; destruct (_ && _); auto).
  induction (VISITAS_EMERGENCIA s) as [|x vs IH]; simpl; auto.
  rewrite Hq. destruct (con_folio f x); simpl; [now rewrite Hc | exact IH].
Qed.

Lemma cerrada_VISITAS (ahora folio : string) (s : BD) :
  VISITAS_EMERGENCIA (cerrada ahora folio s) =
  map (fun v => if con_folio folio v && abierta v then con_cierre ahora v else v)
      (VISITAS_EMERGENCIA s).
Proof. reflexivity. Qed.

Lemma cerrada_DOCTORES (ahora folio : string) (s : BD) :
  DOCTORES (cerrada ahora folio s) =
  map (fun d => if igual_a (Doctor.id_doctor d) (subconsulta Visita.id_doctor folio s)
                then con_disponible true d else d)
      (DOCTORES s).
Proof.
  rewrite <- (subconsulta_cerrar_visita Visita.id_doctor ahora folio folio s)
    by reflexivity.
  reflexivity.
Qed.

Lemma cerrada_CAMAS (ahora folio : string) (s : BD) :
  CAMAS (cerrada ahora folio s) =
  map (fun c => if igual_a (Cama.id_cama c) (subconsulta Visita.id_cama folio s)
                   && igual_a (Cama.id_sala c) (subconsulta Visita.id_sala folio s)
                then con_estado LIBRE c else c)
      (CAMAS s).
Proof.
  rewrite <- (subconsulta_cerrar_visita Visita.id_cama ahora folio folio s),
          <- (subconsulta_cerrar_visita Visita.id_sala ahora folio folio s)
    by reflexivity.
  reflexivity.
Qed.

Lemma cerrada_claves_doctores (ahora folio : string) (s : BD) :
  map Doctor.id_doctor (DOCTORES (cerrada ahora folio s)) =
  map Doctor.id_doctor (DOCTORES s).
Proof.
  rewrite cerrada_DOCTORES, map_map. apply map_ext. intros d. now destruct (igual_a _ _).
Qed.

Lemma cerrada_claves_camas (ahora folio : string) (s : BD) :
  map clave_cama (CAMAS (cerrada ahora folio s)) = map clave_cama (CAMAS s).
Proof.
  rewrite cerrada_CAMAS, map_map. apply map_ext. intros c. now destruct (_ && _).
Qed.

Lemma cerrada_folios (ahora folio : string) (s : BD) :
  map Visita.folio (VISITAS_EMERGENCIA (cerrada ahora folio s)) =
  map Visita.folio (VISITAS_EMERGENCIA s).
Proof.
  rewrite cerrada_VISITAS, map_map. apply map_ext. intros v. now destruct (_ && _).
Qed.

Lemma cerrar_visita_rowcount (ahora folio : string) (s : BD) :
  snd (cerrar_visita ahora folio s) =
  List.length (filter (fun v => con_folio folio v && abierta v) (VISITAS_EMERGENCIA s)).
Proof. reflexivity. Qed.

Lemma abierta_true (v : Visita.t) : abierta v = true <-> Visita.estado v = ABIERTA.
Proof. unfold abierta. destruct (Visita.estado v); split; congruence. Qed.

Lemma con_folio_true (f : string) (v : Visita.t) :
  con_folio f v = true <-> Visita.folio v = f.
Proof. apply String.eqb_eq. Qed.

(** The one open visit of a folio takes exactly one row of the first UPDATE. *)
Lemma cerrar_visita_rowcount_1 (ahora : string) (s : BD) (v : Visita.t) :
  NoDup (map Visita.folio (VISITAS_EMERGENCIA s)) ->
  In v (VISITAS_EMERGENCIA s) -> Visita.estado v = ABIERTA ->
  snd (cerrar_visita ahora (Visita.folio v) s) = 1%nat.
Proof.
  intros Hnd Hv Ha. rewrite cerrar_visita_rowcount.
  apply (@rowcount_clave_1 _ _ Visita.folio (Visita.folio v) _ _ v); auto.
  - intros r Hr. apply andb_true_iff in Hr. now apply con_folio_true.
  - apply andb_true_iff. split; [now apply con_folio_true | now apply abierta_true].
Qed.

(** C3. For every open visit [v] of a database in which the folio identifies
    the visit, [cerrar_visita_tx] on the folio of [v] returns normally and
    leaves the visit closed with [fecha_hora_cierre] set, every row of the
    doctor of [v] available and every row of the bed of [v] in its room free;
    the doctor and bed rows that existed are still there. *)
Theorem C3_cerrar_visita_abierta (ahora : string) (s : BD) (v : Visita.t) :
  NoDup (map Visita.folio (VISITAS_EMERGENCIA s)) ->
  In v (VISITAS_EMERGENCIA s) ->
  Visita.estado v = ABIERTA ->
  exists s' tr,
    cerrar_visita_tx ahora (Visita.folio v) s = (Ok tt, s', tr)
    /\ In (con_cierre ahora v) (VISITAS_EMERGENCIA s')
    /\ (forall x, In x (VISITAS_EMERGENCIA s') -> Visita.folio x = Visita.folio v ->
          Visita.estado x = CERRADA /\ Visita.fecha_hora_cierre x = Some ahora)
    /\ map Doctor.id_doctor (DOCTORES s') = map Doctor.id_doctor (DOCTORES s)
    /\ (forall d, In d (DOCTORES s') -> Doctor.id_doctor d = Visita.id_doctor v ->
          Doctor.disponible d = true)
    /\ map clave_cama (CAMAS s') = map clave_cama (CAMAS s)
    /\ (forall c, In c (CAMAS s') -> Cama.id_cama c = Visita.id_cama v ->
          Cama.id_sala c = Visita.id_sala v -> Cama.estado c = LIBRE).
Proof.
  intros Hnd Hv Ha.
  rewrite cerrar_visita_tx_eq, (cerrar_visita_rowcount_1 ahora s v Hnd Hv Ha). simpl negb.
  cbv iota. do 2 eexists. split; [reflexivity|].
  assert (Hab : abierta v = true) by now apply abierta_true.
  assert (Hfo : con_folio (Visita.folio v) v = true) by now apply con_folio_true.
  split; [|split; [|split; [|split; [|split]]]].
  - rewrite cerrada_VISITAS. apply in_map_iff. exists v. now rewrite Hfo, Hab.
  - intros x Hx Hfx. rewrite cerrada_VISITAS in Hx. apply in_map_iff in Hx.
    destruct Hx as (x0 & <- & Hx0).
    destruct (con_folio (Visita.folio v) x0 && abierta x0) eqn:E; [simpl; auto|].
    exfalso. assert (x0 = v) as ->
      by (apply (NoDup_map_inj Visita.folio _ x0 v Hnd); auto).
    rewrite Hfo, Hab in E. discriminate.
  - apply cerrada_claves_doctores.
  - intros d Hd Hid. rewrite cerrada_DOCTORES in Hd.
    rewrite (subconsulta_unica Visita.id_doctor s v Hnd Hv) in Hd.
    apply in_map_iff in Hd. destruct Hd as (d0 & <- & _). simpl in *.
    destruct (Doctor.id_doctor d0 =? Visita.id_doctor v) eqn:E; simpl in *; auto.
    apply Z.eqb_neq in E. contradiction.
  - apply cerrada_claves_camas.
  - intros c Hc H1 H2. rewrite cerrada_CAMAS in Hc.
    rewrite (subconsulta_unica Visita.id_cama s v Hnd Hv),
            (subconsulta_unica Visita.id_sala s v Hnd Hv) in Hc.
    apply in_map_iff in Hc. destruct Hc as (c0 & <- & _). simpl in *.
    destruct (Cama.id_cama c0 =? Visita.id_cama v) eqn:E1;
      destruct (Cama.id_sala c0 =? Visita.id_sala v) eqn:E2; simpl in *; auto;
      try (apply Z.eqb_neq in E1; contradiction);
      try (apply Z.eqb_neq in E2; contradiction).
Qed.

Lemma C3_cerrar_visita_abierta_testigo :
  NoDup (map Visita.folio (VISITAS_EMERGENCIA bd_A_abierta))
  /\ In visita_A (VISITAS_EMERGENCIA bd_A_abierta)
  /\ Visita.estado visita_A = ABIERTA
  /\ exists s' tr,
      cerrar_visita_tx "2024-05-01T11:00:00" "F1" bd_A_abierta = (Ok tt, s', tr)
      /\ In (con_cierre "2024-05-01T11:00:00" visita_A) (VISITAS_EMERGENCIA s')
      /\ (forall x, In x (VISITAS_EMERGENCIA s') -> Visita.folio x = "F1" ->
            Visita.estado x = CERRADA
            /\ Visita.fecha_hora_cierre x = Some "2024-05-01T11:00:00")
      /\ map Doctor.id_doctor (DOCTORES s') = [1]
      /\ (forall d, In d (DOCTORES s') -> Doctor.id_doctor d = 1 ->
            Doctor.disponible d = true)
      /\ map clave_cama (CAMAS s') = [(1, 1)]
      /\ (forall c, In c (CAMAS s') -> Cama.id_cama c = 1 -> Cama.id_sala c = 1 ->
            Cama.estado c = LIBRE).
Proof.
  assert (H1 : NoDup (map Visita.folio (VISITAS_EMERGENCIA bd_A_abierta)))
    by (simpl; constructor; [intros [] | constructor]).
  assert (H2 : In visita_A (VISITAS_EMERGENCIA bd_A_abierta)) by (simpl; auto).
  split; [exact H1|]. split; [exact H2|]. split; [reflexivity|].
  exact (@C3_cerrar_visita_abierta "2024-05-01T11:00:00" bd_A_abierta visita_A
           H1 H2 eq_refl).
Defined.

(** C4. [cerrar_visita_tx] on a folio that has no open visit, because no
    visit has the folio, or the visit is closed, or an earlier
    [cerrar_visita_tx] on the same folio has just returned normally, raises
    "Visita no encontrada o ya cerrada" and leaves the database as it was: the
    only statement executed is the UPDATE of the visit, which takes no row and
    changes nothing, and no UPDATE of a doctor or a bed is executed. *)
Theorem C4_cerrar_sin_visita_abierta (ahora folio : string) (s : BD) :
  (forall v, In v (VISITAS_EMERGENCIA s) -> Visita.folio v = folio ->
             Visita.estado v = CERRADA)
  \/ (exists ahora0 s0 tr0, cerrar_visita_tx ahora0 folio s0 = (Ok tt, s, tr0)) ->
  cerrar_visita_tx ahora folio s =
    (Raise Visita_no_encontrada_o_cerrada, s,
     [PRAGMA_foreign_keys; BEGIN_IMMEDIATE; UPDATE_cerrar_visita folio; ROLLBACK])
  /\ cerrar_visita ahora folio s = (s, 0%nat).
Proof.
  intros H.
  assert (Hc : forall v, In v (VISITAS_EMERGENCIA s) ->
                 con_folio folio v && abierta v = false).
  { destruct H as [H | (ahora0 & s0 & tr0 & H)].
    - intros v Hv. destruct (con_folio folio v) eqn:E; auto.
      apply con_folio_true in E. unfold abierta. now rewrite (H v Hv E).
    - rewrite cerrar_visita_tx_eq in H.
      destruct (negb _); [discriminate|]. injection H as <- _.
      intros v Hv. rewrite cerrada_VISITAS in Hv. apply in_map_iff in Hv.
      destruct Hv as (v0 & <- & _).
      destruct (con_folio folio v0 && abierta v0) eqn:E; [|exact E].
      apply andb_false_iff. now right. }
  assert (E : cerrar_visita ahora folio s = (s, 0%nat)).
  { unfold cerrar_visita. rewrite sql_update_ninguna by exact Hc. now destruct s. }
  split; [|exact E].
  rewrite cerrar_visita_tx_eq, E. reflexivity.
Qed.

Lemma C4_cerrar_sin_visita_abierta_testigo :
  (exists ahora0 s0 tr0, cerrar_visita_tx ahora0 "F1" s0 = (Ok tt, bd_A_cerrada, tr0))
  /\ cerrar_visita_tx "2024-05-01T12:00:00" "F1" bd_A_cerrada =
       (Raise Visita_no_encontrada_o_cerrada, bd_A_cerrada,
        [PRAGMA_foreign_keys; BEGIN_IMMEDIATE; UPDATE_cerrar_visita "F1"; ROLLBACK])
  /\ (forall v, In v (VISITAS_EMERGENCIA bd_A) -> Visita.folio v = "no-existe" ->
                Visita.estado v = CERRADA)
  /\ cerrar_visita_tx "2024-05-01T12:00:00" "no-existe" bd_A =
       (Raise Visita_no_encontrada_o_cerrada, bd_A,
        [PRAGMA_foreign_keys; BEGIN_IMMEDIATE; UPDATE_cerrar_visita "no-existe";
         ROLLBACK]).
Proof.
  assert (H1 : exists ahora0 s0 tr0,
             cerrar_visita_tx ahora0 "F1" s0 = (Ok tt, bd_A_cerrada, tr0)).
  { exists "2024-05-01T11:00:00", bd_A_abierta. eexists. reflexivity. }
  assert (H2 : forall v, In v (VISITAS_EMERGENCIA bd_A) -> Visita.folio v = "no-existe" ->
                         Visita.estado v = CERRADA) by (intros v []).
  split; [exact H1|]. split.
  - exact (proj1 (@C4_cerrar_sin_visita_abierta "2024-05-01T12:00:00" "F1" bd_A_cerrada
                    (or_intror H1))).
  - split; [exact H2|].
    exact (proj1 (@C4_cerrar_sin_visita_abierta "2024-05-01T12:00:00" "no-existe" bd_A
                    (or_introl H2))).
Defined.

(** C10. [cerrar_visita_tx] reads the cursor of the first UPDATE only: for
    every folio for which the UPDATE that closes the visit takes exactly one
    row, it returns normally and commits, whatever number of rows the UPDATE
    that releases the doctor and the UPDATE that releases the bed take. *)
Theorem C10_cerrar_no_revisa_liberaciones (ahora folio : string) (s : BD)
    (n_doctor n_cama : nat) :
  snd (cerrar_visita ahora folio s) = 1%nat ->
  snd (liberar_doctor_de_visita folio (fst (cerrar_visita ahora folio s))) = n_doctor ->
  snd (liberar_cama_de_visita folio
         (fst (liberar_doctor_de_visita folio (fst (cerrar_visita ahora folio s)))))
    = n_cama ->
  cerrar_visita_tx ahora folio s =
    (Ok tt, cerrada ahora folio s,
     [PRAGMA_foreign_keys; BEGIN_IMMEDIATE; UPDATE_cerrar_visita folio;
      UPDATE_liberar_doctor_de_visita folio; UPDATE_liberar_cama_de_visita folio;
      COMMIT]).
Proof.
  intros H _ _. rewrite cerrar_visita_tx_eq, H. reflexivity.
Qed.

Lemma C10_cerrar_no_revisa_liberaciones_testigo :
  snd (cerrar_visita "2024-05-01T11:00:00" "F1" bd_sin_recursos) = 1%nat
  /\ snd (liberar_doctor_de_visita "F1"
            (fst (cerrar_visita "2024-05-01T11:00:00" "F1" bd_sin_recursos))) = 0%nat
  /\ snd (liberar_cama_de_visita "F1"
            (fst (liberar_doctor_de_visita "F1"
               (fst (cerrar_visita "2024-05-01T11:00:00" "F1" bd_sin_recursos)))))
       = 0%nat
  /\ cerrar_visita_tx "2024-05-01T11:00:00" "F1" bd_sin_recursos =
       (Ok tt, cerrada "2024-05-01T11:00:00" "F1" bd_sin_recursos,
        [PRAGMA_foreign_keys; BEGIN_IMMEDIATE; UPDATE_cerrar_visita "F1";
         UPDATE_liberar_doctor_de_visita "F1"; UPDATE_liberar_cama_de_visita "F1";
         COMMIT]).
Proof.
  split; [reflexivity|]. split; [reflexivity|]. split; [reflexivity|].
  exact (@C10_cerrar_no_revisa_liberaciones "2024-05-01T11:00:00" "F1" bd_sin_recursos
           0%nat 0%nat eq_refl eq_refl eq_refl).
Defined.

(** ** Opening when identities are not 0 *)

(** Where identities are keys and no eligible doctor and no free bed has the
    identity 0, an eligible doctor and a free bed are enough for both claims
    to take exactly one row. *)
Lemma reclamo_posible_existe (s : BD) :
  NoDup (map Doctor.id_doctor (DOCTORES s)) ->
  NoDup (map clave_cama (CAMAS s)) ->
  (exists d, In d (DOCTORES s) /\ elegible d = true) ->
  (exists c, In c (CAMAS s) /\ libre c = true) ->
  (forall d, In d (DOCTORES s) -> elegible d = true -> Doctor.id_doctor d <> 0) ->
  (forall c, In c (CAMAS s) -> libre c = true -> Cama.id_cama c <> 0) ->
  exists d c sa, reclamo_posible s d c sa.
Proof.
  intros Hnd Hnc (d0 & Hd0 & He0) (c0 & Hc0 & Hl0) Hd Hc.
  destruct (q_doctor_disponible s) as [i|] eqn:Ei.
  2:{ rewrite (proj1 (q_doctor_disponible_None s) Ei d0 Hd0) in He0. discriminate. }
  destruct (q_cama_libre s) as [[c sa]|] eqn:Ec.
  2:{ rewrite (proj1 (q_cama_libre_None s) Ec c0 Hc0) in Hl0. discriminate. }
  destruct (q_doctor_disponible_Some _ Ei) as (d & Hdin & Hid & He & _).
  destruct (q_cama_libre_Some _ Ec) as (r & Hrin & Hr1 & Hr2 & Hr3).
  assert (Hlr : libre r = true) by (unfold libre; now rewrite Hr3).
  exists i, c, sa. unfold reclamo_posible.
  split; [exact Ei|]. split; [rewrite <- Hid; now apply Hd|].
  split; [exact Ec|]. split; [rewrite <- Hr1; now apply Hc|]. split.
  - unfold ocupar_doctor, sql_update; simpl.
    apply (@rowcount_clave_1 _ _ Doctor.id_doctor i _ _ d); auto.
    + intros x Hx. apply andb_true_iff in Hx. now apply Z.eqb_eq.
    + unfold elegible in He. apply andb_true_iff in He.
      apply andb_true_iff. split; [now apply Z.eqb_eq | tauto].
  - unfold ocupar_cama, sql_update; simpl.
    apply (@rowcount_clave_1 _ _ clave_cama (sa, c) _ _ r); auto.
    + intros x Hx. unfold es_cama in Hx. rewrite !andb_true_iff, !Z.eqb_eq in Hx.
      unfold clave_cama. f_equal; tauto.
    + unfold es_cama. rewrite Hlr, Hr1, Hr2, !Z.eqb_refl. reflexivity.
Qed.

(** With a complete payload whose integers can be bound the visit is then
    opened as the assignment says. *)
Lemma crear_visita_tx_exito_general
    (genera_folio : BD -> Z -> string) (ahora : string) (payload : Payload.t) (s : BD) :
  NoDup (map Doctor.id_doctor (DOCTORES s)) ->
  NoDup (map clave_cama (CAMAS s)) ->
  (exists d, In d (DOCTORES s) /\ elegible d = true) ->
  (exists c, In c (CAMAS s) /\ libre c = true) ->
  (forall d, In d (DOCTORES s) -> elegible d = true -> Doctor.id_doctor d <> 0) ->
  (forall c, In c (CAMAS s) -> libre c = true -> Cama.id_cama c <> 0) ->
  primera_faltante payload = None ->
  payload_enlazable payload = true ->
  exists d c sa,
    q_doctor_disponible s = Some d /\ q_cama_libre s = Some (c, sa)
    /\ crear_visita_tx genera_folio ahora payload s =
       (Ok (Asignacion.mk (Visita.folio (visita_nueva genera_folio ahora payload d c sa s))
                          d c sa),
        mkBD (DOCTORES (reclamados d c sa s)) (CAMAS (reclamados d c sa s))
             (VISITAS_EMERGENCIA s ++ [visita_nueva genera_folio ahora payload d c sa s]),
        [PRAGMA_foreign_keys; BEGIN_IMMEDIATE; SELECT_doctor_disponible;
         SELECT_cama_libre; UPDATE_ocupar_doctor d; UPDATE_ocupar_cama c sa;
         INSERT_visita; SELECT_folio_insertado; COMMIT]).
Proof.
  intros Hnd Hnc Hd Hc Hd0 Hc0 Hp He.
  destruct (@reclamo_posible_existe s Hnd Hnc Hd Hc Hd0 Hc0) as (d & c & sa & Hr).
  exists d, c, sa. split; [apply Hr|]. split; [apply Hr|].
  now apply crear_visita_tx_exito.
Qed.

(** [crear_visita_tx] raises "No hay doctor disponible" exactly when the
    selection gave [None] or the identity 0. *)
Lemma crear_visita_tx_sin_doctor
    (genera_folio : BD -> Z -> string) (ahora : string) (payload : Payload.t) (s : BD) :
  fst (fst (crear_visita_tx genera_folio ahora payload s)) = Raise No_hay_doctor_disponible
  <-> q_doctor_disponible s = None \/ q_doctor_disponible s = Some 0.
Proof.
  rewrite crear_visita_tx_eq. cbv zeta.
  destruct (q_doctor_disponible s) as [d|]; [|simpl; tauto].
  destruct (d =? 0) eqn:Ed.
  - apply Z.eqb_eq in Ed. subst. simpl. tauto.
  - apply Z.eqb_neq in Ed.
    split.
    + intros H. exfalso. revert H.
      destruct (q_cama_libre s) as [[c sa]|]; [|discriminate].
      destruct (c =? 0); [discriminate|].
      destruct (negb _); [discriminate|].
      destruct (negb _); [discriminate|].
      destruct (primera_faltante payload); [discriminate|].
      destruct (negb _); discriminate.
    + intros [H|H]; [discriminate | congruence].
Qed.

(** It raises "No hay camas libres" exactly when a doctor was selected and
    the selection of the bed gave [None] or a bed of identity 0. *)
Lemma crear_visita_tx_sin_cama
    (genera_folio : BD -> Z -> string) (ahora : string) (payload : Payload.t) (s : BD) :
  fst (fst (crear_visita_tx genera_folio ahora payload s)) = Raise No_hay_camas_libres
  <-> (exists d, q_doctor_disponible s = Some d /\ d <> 0)
      /\ (q_cama_libre s = None \/ exists sa, q_cama_libre s = Some (0, sa)).
Proof.
  rewrite crear_visita_tx_eq. cbv zeta.
  destruct (q_doctor_disponible s) as [d|].
  2:{ simpl. split; [discriminate | intros [(d & H & _) _]; discriminate]. }
  destruct (d =? 0) eqn:Ed.
  { apply Z.eqb_eq in Ed. simpl.
    split; [discriminate | intros [(d' & H & H0) _]; congruence]. }
  apply Z.eqb_neq in Ed.
  destruct (q_cama_libre s) as [[c sa]|].
  2:{ simpl. split; [intros _; split; eauto | reflexivity]. }
  destruct (c =? 0) eqn:Ec.
  { apply Z.eqb_eq in Ec. subst c. simpl.
    split; [intros _; split; eauto | reflexivity]. }
  apply Z.eqb_neq in Ec. split.
  - intros H. exfalso. revert H.
    destruct (negb _); [discriminate|].
    destruct (negb _); [discriminate|].
    destruct (primera_faltante payload); [discriminate|].
    destruct (negb _); discriminate.
  - intros [_ [H | (sa' & H)]]; [discriminate | congruence].
Qed.

(** When no resource was selected, no statement that writes was executed. *)
Lemma crear_visita_tx_sin_recurso_sin_escrituras
    (genera_folio : BD -> Z -> string) (ahora : string) (payload : Payload.t)
    (s s' : BD) (e : Excepcion) (tr : list Sentencia) :
  crear_visita_tx genera_folio ahora payload s = (Raise e, s', tr) ->
  e = No_hay_doctor_disponible \/ e = No_hay_camas_libres ->
  s' = s /\ existsb es_escritura tr = false.
Proof.
  rewrite crear_visita_tx_eq. cbv zeta.
  destruct (q_doctor_disponible s) as [d|];
    [|intros [= <- <- <-] _; split; reflexivity].
  destruct (d =? 0); [intros [= <- <- <-] _; split; reflexivity|].
  destruct (q_cama_libre s) as [[c sa]|];
    [|intros [= <- <- <-] _; split; reflexivity].
  destruct (c =? 0); [intros [= <- <- <-] _; split; reflexivity|].
  destruct (negb _); [intros [= <- <- <-] [H|H]; discriminate|].
  destruct (negb _); [intros [= <- <- <-] [H|H]; discriminate|].
  destruct (primera_faltante payload);
    [intros [= <- <- <-] [H|H]; discriminate|].
  destruct (negb _); [intros [= <- <- <-] [H|H]; discriminate | discriminate].
Qed.

(** A payload integer that does not fit a SQLite INTEGER stops the call when
    the INSERT is bound, after both claims, which are rolled back. *)
Example crear_visita_tx_prioridad_enorme :
  crear_visita_tx folio_ejemplo "2024-05-01T10:00:00" payload_prioridad_enorme bd_A =
    (Raise OverflowError, bd_A,
     [PRAGMA_foreign_keys; BEGIN_IMMEDIATE; SELECT_doctor_disponible; SELECT_cama_libre;
      UPDATE_ocupar_doctor 1; UPDATE_ocupar_cama 1 1; ROLLBACK]).
Proof. reflexivity. Qed.

(** C2. With the only eligible doctor under identity 0, a free bed and a
    complete payload, [crear_visita_tx] does not open the visit: the truth
    test [if not id_doctor] takes the identity 0 for "no doctor" and the
    transaction raises "No hay doctor disponible". *)
Theorem C2_crear_visita_doctor_0 (genera_folio : BD -> Z -> string) (ahora : string) :
  (exists d, In d (DOCTORES bd_doctor_0)
             /\ Doctor.activo d = true /\ Doctor.disponible d = true)
  /\ (exists c, In c (CAMAS bd_doctor_0) /\ Cama.estado c = LIBRE)
  /\ primera_faltante payload_A = None
  /\ crear_visita_tx genera_folio ahora payload_A bd_doctor_0 =
     (Raise No_hay_doctor_disponible, bd_doctor_0,
      [PRAGMA_foreign_keys; BEGIN_IMMEDIATE; SELECT_doctor_disponible; ROLLBACK]).
Proof.
  split; [exists (Doctor.mk 0 true true); simpl; auto|].
  split; [exists (Cama.mk 1 1 LIBRE); simpl; auto|].
  split; reflexivity.
Qed.

(** C6. [crear_visita_tx] raises "No hay doctor disponible" although a doctor
    is active and available when that doctor has identity 0, and raises "No
    hay camas libres" although a bed is free when that bed has identity 0;
    the database is left as it was. *)
Theorem C6_sin_recurso_con_id_0 (genera_folio : BD -> Z -> string) (ahora : string) :
  ((exists d, In d (DOCTORES bd_doctor_0)
              /\ Doctor.activo d = true /\ Doctor.disponible d = true)
   /\ crear_visita_tx genera_folio ahora payload_A bd_doctor_0 =
      (Raise No_hay_doctor_disponible, bd_doctor_0,
       [PRAGMA_foreign_keys; BEGIN_IMMEDIATE; SELECT_doctor_disponible; ROLLBACK]))
  /\ ((exists c, In c (CAMAS bd_cama_0) /\ Cama.estado c = LIBRE)
      /\ q_doctor_disponible bd_cama_0 = Some 1
      /\ crear_visita_tx genera_folio ahora payload_A bd_cama_0 =
         (Raise No_hay_camas_libres, bd_cama_0,
          [PRAGMA_foreign_keys; BEGIN_IMMEDIATE; SELECT_doctor_disponible;
           SELECT_cama_libre; ROLLBACK])).
Proof.
  split; split.
  - exists (Doctor.mk 0 true true); simpl; auto.
  - reflexivity.
  - exists (Cama.mk 0 1 LIBRE); simpl; auto.
  - split; reflexivity.
Qed.

(** ** A payload without a required key *)

(** With a doctor and a bed to claim, the missing [id_paciente] is noticed
    only after two SELECTs and two UPDATEs were executed; with no doctor at
    all, the exception is "No hay doctor disponible", not the [KeyError]. *)
Lemma C8_validacion_previa_contraejemplo :
  ~ validacion_previa folio_ejemplo "2024-05-01T10:00:00" payload_sin_paciente bd_A
  /\ ~ validacion_previa folio_ejemplo "2024-05-01T10:00:00" payload_sin_paciente bd_vacia.
Proof.
  split; intros (k & _ & H); vm_compute in H.
  - destruct H as (_ & _ & H). discriminate.
  - destruct H as (H & _). discriminate.
Qed.

(** C8, as the code has it. For every payload that lacks a required key
    ([id_paciente], [id_trabajador] or [origen_solicitud]) [crear_visita_tx]
    raises, leaves the database as it was and never executes the INSERT.
    There is no validation step: the key is looked up while the parameters of
    the INSERT are built, so when both claims take one row the exception is
    the [KeyError] of the first missing key, raised after the two SELECTs and
    the two claiming UPDATEs, which are rolled back; otherwise the exception
    is the one of the selection or of the claim. *)
Theorem C8_campo_requerido_faltante
    (genera_folio : BD -> Z -> string) (ahora : string) (payload : Payload.t) (s : BD)
    (k : string) :
  primera_faltante payload = Some k ->
  exists e tr,
    crear_visita_tx genera_folio ahora payload s = (Raise e, s, tr)
    /\ ~ In INSERT_visita tr
    /\ ((exists d c sa,
           reclamo_posible s d c sa /\ e = KeyError k
           /\ tr = [PRAGMA_foreign_keys; BEGIN_IMMEDIATE; SELECT_doctor_disponible;
                    SELECT_cama_libre; UPDATE_ocupar_doctor d; UPDATE_ocupar_cama c sa;
                    ROLLBACK])
        \/ ((forall d c sa, ~ reclamo_posible s d c sa)
            /\ (e = No_hay_doctor_disponible \/ e = No_hay_camas_libres
                \/ e = Recursos_tomados))).
Proof.
  intros Hk. rewrite crear_visita_tx_eq. cbv zeta. unfold reclamo_posible.
  destruct (q_doctor_disponible s) as [d|] eqn:Ed.
  2:{ do 2 eexists. split; [reflexivity|]. split; [simpl; intuition discriminate|].
      right. split; [|auto]. intros d' c' sa' (H1 & _). discriminate. }
  destruct (d =? 0) eqn:Ed0.
  { do 2 eexists. split; [reflexivity|]. split; [simpl; intuition discriminate|].
    right. split; [|auto]. intros d' c' sa' (H1 & H2 & _).
    apply Z.eqb_eq in Ed0. congruence. }
  destruct (q_cama_libre s) as [[c sa]|] eqn:Ec.
  2:{ do 2 eexists. split; [reflexivity|]. split; [simpl; intuition discriminate|].
      right. split; [|auto]. intros d' c' sa' (_ & _ & H3 & _). discriminate. }
  destruct (c =? 0) eqn:Ec0.
  { do 2 eexists. split; [reflexivity|]. split; [simpl; intuition discriminate|].
    right. split; [|auto]. intros d' c' sa' (_ & _ & H3 & H4 & _).
    apply Z.eqb_eq in Ec0. congruence. }
  destruct (snd (ocupar_doctor d s) =? 1)%nat eqn:En1; cbn [negb].
  2:{ do 2 eexists. split; [reflexivity|]. split; [simpl; intuition discriminate|].
      right. split; [|auto]. intros d' c' sa' (H1 & _ & _ & _ & H5 & _).
      apply Nat.eqb_neq in En1. congruence. }
  destruct (snd (ocupar_cama c sa s) =? 1)%nat eqn:En2; cbn [negb].
  2:{ do 2 eexists. split; [reflexivity|]. split; [simpl; intuition discriminate|].
      right. split; [|auto]. intros d' c' sa' (_ & _ & H3 & _ & _ & H6).
      apply Nat.eqb_neq in En2. congruence. }
  rewrite Hk. do 2 eexists. split; [reflexivity|].
  split; [simpl; intuition discriminate|].
  left. exists d, c, sa.
  apply Z.eqb_neq in Ed0, Ec0. apply Nat.eqb_eq in En1, En2. auto 10.
Qed.

Lemma C8_campo_requerido_faltante_testigo :
  primera_faltante payload_sin_paciente = Some "id_paciente"
  /\ exists e tr,
      crear_visita_tx folio_ejemplo "2024-05-01T10:00:00" payload_sin_paciente bd_A =
        (Raise e, bd_A, tr)
      /\ ~ In INSERT_visita tr
      /\ ((exists d c sa,
             reclamo_posible bd_A d c sa /\ e = KeyError "id_paciente"
             /\ tr = [PRAGMA_foreign_keys; BEGIN_IMMEDIATE; SELECT_doctor_disponible;
                      SELECT_cama_libre; UPDATE_ocupar_doctor d; UPDATE_ocupar_cama c sa;
                      ROLLBACK])
          \/ ((forall d c sa, ~ reclamo_posible bd_A d c sa)
              /\ (e = No_hay_doctor_disponible \/ e = No_hay_camas_libres
                  \/ e = Recursos_tomados))).
Proof.
  split; [reflexivity|].
  exact (@C8_campo_requerido_faltante folio_ejemplo "2024-05-01T10:00:00"
           payload_sin_paciente bd_A "id_paciente" eq_refl).
Defined.

(** ** Conservation *)

Lemma NoDup_snoc (A : Type) (l : list A) (x : A) :
  NoDup l -> ~ In x l -> NoDup (l ++ [x]).
Proof.
  intros Hl Hx. apply NoDup_app; auto.
  - constructor; [intros [] | constructor].
  - intros y Hy [<-|[]]. contradiction.
Qed.

Lemma ocupada_true (c : Cama.t) : ocupada c = true <-> Cama.estado c = OCUPADA.
Proof. unfold ocupada, libre. destruct (Cama.estado c); split; simpl; congruence. Qed.

Lemma no_disponible_true (d : Doctor.t) :
  no_disponible d = true <-> Doctor.disponible d = false.
Proof. unfold no_disponible. destruct (Doctor.disponible d); split; simpl; congruence. Qed.

(** The coupling gives the two equalities of the conservation property. *)
Lemma invariante_conservacion (s : BD) : invariante s -> conservacion s.
Proof.
  intros I. split.
  - rewrite <- (length_map Doctor.id_doctor). apply Permutation_length.
    apply NoDup_Permutation.
    + apply NoDup_map_filter, (inv_doctores I).
    + apply NoDup_nodup.
    + intros x. unfold doctores_en_abiertas. rewrite nodup_In, !in_map_iff. split.
      * intros (d & <- & Hd). apply filter_In in Hd. destruct Hd as [Hd Hn].
        apply no_disponible_true in Hn.
        destruct (inv_doctor_en_visita I d Hd Hn) as (v & Hv & E). eauto.
      * intros (v & <- & Hv).
        destruct (inv_doctor_tomado I v Hv) as (d & Hd & E & Hn).
        exists d. split; [exact E|]. apply filter_In. split; [exact Hd|].
        now apply no_disponible_true.
  - rewrite <- (length_map clave_cama). apply Permutation_length.
    apply NoDup_Permutation.
    + apply NoDup_map_filter, (inv_camas I).
    + apply NoDup_nodup.
    + intros x. unfold camas_en_abiertas. rewrite nodup_In, !in_map_iff. split.
      * intros (c & <- & Hc). apply filter_In in Hc. destruct Hc as [Hc Hn].
        apply ocupada_true in Hn.
        destruct (inv_cama_en_visita I c Hc Hn) as (v & Hv & E). eauto.
      * intros (v & <- & Hv).
        destruct (inv_cama_tomada I v Hv) as (c & Hc & E & Hn).
        exists c. split; [exact E|]. apply filter_In. split; [exact Hc|].
        now apply ocupada_true.
Qed.

(** A doctor that is available and a bed that is free are held by no open
    visit. *)
Lemma doctor_disponible_sin_visita (s : BD) (r : Doctor.t) (v : Visita.t) :
  invariante s -> In r (DOCTORES s) -> Doctor.disponible r = true ->
  In v (abiertas s) -> Visita.id_doctor v <> Doctor.id_doctor r.
Proof.
  intros I Hr Hd Hv E.
  destruct (inv_doctor_tomado I v Hv) as (d & Hdin & Hid & Hn).
  assert (d = r) as -> by (apply (NoDup_map_inj Doctor.id_doctor _ d r (inv_doctores I));
                           auto; congruence).
  congruence.
Qed.

Lemma cama_libre_sin_visita (s : BD) (r : Cama.t) (v : Visita.t) :
  invariante s -> In r (CAMAS s) -> Cama.estado r = LIBRE ->
  In v (abiertas s) -> cama_de v <> clave_cama r.
Proof.
  intros I Hr Hd Hv E.
  destruct (inv_cama_tomada I v Hv) as (c & Hcin & Hid & Hn).
  assert (c = r) as -> by (apply (NoDup_map_inj clave_cama _ c r (inv_camas I));
                           auto; congruence).
  congruence.
Qed.

Lemma crear_conserva_invariante
    (genera_folio : BD -> Z -> string) (ahora : string) (payload : Payload.t)
    (s : BD) (d c sa : Z) :
  invariante s -> reclamo_posible s d c sa ->
  ~ In (Visita.folio (visita_nueva genera_folio ahora payload d c sa s))
       (map Visita.folio (VISITAS_EMERGENCIA s)) ->
  invariante (mkBD (DOCTORES (reclamados d c sa s)) (CAMAS (reclamados d c sa s))
                   (VISITAS_EMERGENCIA s
                    ++ [visita_nueva genera_folio ahora payload d c sa s])).
Proof.
  intros I (Hqd & _ & Hqc & _ & Hn1 & Hn2) Hfresco.
  set (vn := visita_nueva genera_folio ahora payload d c sa s) in *.
  destruct (q_doctor_disponible_Some _ Hqd) as (r0 & Hr0 & Hid0 & He0 & _).
  destruct (q_cama_libre_Some _ Hqc) as (c0 & Hc0 & Hc1 & Hc2 & Hc3).
  assert (Hdisp0 : Doctor.disponible r0 = true).
  { unfold elegible in He0. apply andb_true_iff in He0. tauto. }
  assert (Hab : abiertas (mkBD (DOCTORES (reclamados d c sa s))
                               (CAMAS (reclamados d c sa s))
                               (VISITAS_EMERGENCIA s ++ [vn]))
                = abiertas s ++ [vn]).
  { unfold abiertas. cbn [VISITAS_EMERGENCIA]. now rewrite filter_app. }
  assert (Hvd : Visita.id_doctor vn = d) by reflexivity.
  assert (Hvc : cama_de vn = (sa, c)) by reflexivity.
  assert (Hkc0 : clave_cama c0 = (sa, c)) by (unfold clave_cama; congruence).
  assert (Hd_nuevo : ~ In d (map Visita.id_doctor (abiertas s))).
  { intros Hin. apply in_map_iff in Hin. destruct Hin as (v & E & Hv).
    apply (@doctor_disponible_sin_visita s r0 v I Hr0 Hdisp0 Hv). congruence. }
  assert (Hc_nueva : ~ In (sa, c) (map cama_de (abiertas s))).
  { intros Hin. apply in_map_iff in Hin. destruct Hin as (v & E & Hv).
    apply (@cama_libre_sin_visita s c0 v I Hc0 Hc3 Hv). congruence. }
  constructor; rewrite ?Hab; cbn [DOCTORES CAMAS VISITAS_EMERGENCIA].
  - rewrite reclamados_claves_doctores. apply (inv_doctores I).
  - rewrite reclamados_claves_camas. apply (inv_camas I).
  - rewrite map_app. apply NoDup_snoc; [apply (inv_folios I) | exact Hfresco].
  - intros v Hv. apply in_app_or in Hv. destruct Hv as [Hv | [<- | []]].
    + destruct (inv_doctor_tomado I v Hv) as (d1 & Hd1 & E1 & Hn).
      exists d1. split; [|auto]. apply reclamados_doctor_In. exists d1.
      split; [exact Hd1|]. now rewrite Hn, andb_false_r.
    + destruct (reclamados_doctor_existe d c sa s Hn1) as (r & Hr & E & Hn).
      exists r. rewrite Hvd. auto.
  - intros v Hv. apply in_app_or in Hv. destruct Hv as [Hv | [<- | []]].
    + destruct (inv_cama_tomada I v Hv) as (c1 & Hc1in & E1 & Hn).
      exists c1. split; [|auto]. apply reclamados_cama_In. exists c1.
      split; [exact Hc1in|]. unfold libre. now rewrite Hn, andb_false_r.
    + destruct (reclamados_cama_existe d c sa s Hn2) as (r & Hr & E1 & E2 & Hn).
      exists r. rewrite Hvc. unfold clave_cama. rewrite E1, E2. auto.
  - rewrite map_app. apply NoDup_snoc; [apply (inv_doctor_exclusivo I) | exact Hd_nuevo].
  - rewrite map_app. apply NoDup_snoc; [apply (inv_cama_exclusiva I) | exact Hc_nueva].
  - intros d' Hd' Hn. apply reclamados_doctor_In in Hd'.
    destruct Hd' as (r & Hr & ->).
    destruct ((Doctor.id_doctor r =? d) && Doctor.disponible r) eqn:E.
    + exists vn. split; [apply in_or_app; right; now left|].
      apply andb_true_iff in E. destruct E as [E _]. apply Z.eqb_eq in E.
      simpl. congruence.
    + destruct (inv_doctor_en_visita I r Hr Hn) as (v & Hv & Ev).
      exists v. split; [apply in_or_app; now left | exact Ev].
  - intros c' Hc' Hn. apply reclamados_cama_In in Hc'.
    destruct Hc' as (r & Hr & ->).
    destruct (es_cama c sa r && libre r) eqn:E.
    + exists vn. split; [apply in_or_app; right; now left|].
      apply andb_true_iff in E. destruct E as [E _]. unfold es_cama in E.
      apply andb_true_iff in E. destruct E as [E1 E2]. apply Z.eqb_eq in E1, E2.
      rewrite Hvc. unfold clave_cama. simpl. congruence.
    + destruct (inv_cama_en_visita I r Hr Hn) as (v & Hv & Ev).
      exists v. split; [apply in_or_app; now left | exact Ev].
Qed.

(** Closing removes the visits of the folio from the open ones. *)
Lemma abiertas_cerrada (ahora folio : string) (s : BD) :
  abiertas (cerrada ahora folio s) =
  filter (fun x => negb (con_folio folio x)) (abiertas s).
Proof.
  unfold abiertas. rewrite cerrada_VISITAS.
  induction (VISITAS_EMERGENCIA s) as [|x vs IH]; simpl; auto.
  destruct (con_folio folio x) eqn:Ef; destruct (abierta x) eqn:Ea; simpl;
    rewrite ?Ea, ?Ef; simpl; rewrite IH; reflexivity.
Qed.

Lemma cerrar_conserva_invariante (ahora folio : string) (s : BD) :
  invariante s -> snd (cerrar_visita ahora folio s) = 1%nat ->
  invariante (cerrada ahora folio s).
Proof.
  intros I Hn. rewrite cerrar_visita_rowcount in Hn.
  destruct (@rowcount_pos _ _ (VISITAS_EMERGENCIA s) ltac:(rewrite Hn; lia))
    as (v & Hv & Hp).
  apply andb_true_iff in Hp. destruct Hp as [Hf Ha].
  apply con_folio_true in Hf. subst folio.
  assert (Hva : In v (abiertas s)) by (apply filter_In; auto).
  pose proof (inv_folios I) as Hnd.
  assert (Hotra : forall x, In x (abiertas (cerrada ahora (Visita.folio v) s)) ->
                    In x (abiertas s) /\ x <> v).
  { intros x Hx. rewrite abiertas_cerrada in Hx. apply filter_In in Hx.
    destruct Hx as [Hx Hnf]. split; [exact Hx|]. intros ->.
    unfold con_folio in Hnf. rewrite String.eqb_refl in Hnf. discriminate. }
  assert (Hresto : forall x, In x (abiertas s) -> x <> v ->
                     In x (abiertas (cerrada ahora (Visita.folio v) s))).
  { intros x Hx Hne. rewrite abiertas_cerrada. apply filter_In. split; [exact Hx|].
    destruct (con_folio (Visita.folio v) x) eqn:E; auto. exfalso. apply Hne.
    apply con_folio_true in E. apply filter_In in Hx.
    apply (NoDup_map_inj Visita.folio _ x v Hnd); tauto. }
  assert (Hdoc : forall x, In x (abiertas s) -> x <> v ->
                   Visita.id_doctor x <> Visita.id_doctor v).
  { intros x Hx Hne E. apply Hne.
    apply (NoDup_map_inj Visita.id_doctor _ x v (inv_doctor_exclusivo I)); auto. }
  assert (Hcam : forall x, In x (abiertas s) -> x <> v -> cama_de x <> cama_de v).
  { intros x Hx Hne E. apply Hne.
    apply (NoDup_map_inj cama_de _ x v (inv_cama_exclusiva I)); auto. }
  assert (HD : forall d', In d' (DOCTORES (cerrada ahora (Visita.folio v) s)) <->
             exists r, In r (DOCTORES s) /\
               d' = if Doctor.id_doctor r =? Visita.id_doctor v
                    then con_disponible true r else r).
  { intros d'. rewrite cerrada_DOCTORES, (subconsulta_unica Visita.id_doctor s v Hnd Hv).
    rewrite in_map_iff. split; intros (r & H1 & H2); exists r; auto. }
  assert (HC : forall c', In c' (CAMAS (cerrada ahora (Visita.folio v) s)) <->
             exists r, In r (CAMAS s) /\
               c' = if (Cama.id_cama r =? Visita.id_cama v)
                       && (Cama.id_sala r =? Visita.id_sala v)
                    then con_estado LIBRE r else r).
  { intros c'. rewrite cerrada_CAMAS, (subconsulta_unica Visita.id_cama s v Hnd Hv),
      (subconsulta_unica Visita.id_sala s v Hnd Hv).
    rewrite in_map_iff. split; intros (r & H1 & H2); exists r; auto. }
  constructor.
  - rewrite cerrada_claves_doctores. apply (inv_doctores I).
  - rewrite cerrada_claves_camas. apply (inv_camas I).
  - rewrite cerrada_folios. exact Hnd.
  - intros x Hx. destruct (Hotra x Hx) as [Hxa Hne].
    destruct (inv_doctor_tomado I x Hxa) as (d1 & Hd1 & E1 & Hn1).
    exists d1. split; [|auto]. apply HD. exists d1. split; [exact Hd1|].
    destruct (Doctor.id_doctor d1 =? Visita.id_doctor v) eqn:E; auto.
    apply Z.eqb_eq in E. exfalso. apply (Hdoc x Hxa Hne). congruence.
  - intros x Hx. destruct (Hotra x Hx) as [Hxa Hne].
    destruct (inv_cama_tomada I x Hxa) as (c1 & Hc1 & E1 & Hn1).
    exists c1. split; [|auto]. apply HC. exists c1. split; [exact Hc1|].
    destruct ((Cama.id_cama c1 =? Visita.id_cama v)
              && (Cama.id_sala c1 =? Visita.id_sala v)) eqn:E; auto.
    apply andb_true_iff in E. destruct E as [E2 E3]. apply Z.eqb_eq in E2, E3.
    exfalso. apply (Hcam x Hxa Hne). rewrite <- E1. unfold clave_cama, cama_de.
    congruence.
  - rewrite abiertas_cerrada. apply NoDup_map_filter, (inv_doctor_exclusivo I).
  - rewrite abiertas_cerrada. apply NoDup_map_filter, (inv_cama_exclusiva I).
  - intros d' Hd' Hn'. apply HD in Hd'. destruct Hd' as (r & Hr & ->).
    destruct (Doctor.id_doctor r =? Visita.id_doctor v) eqn:E; [discriminate|].
    apply Z.eqb_neq in E.
    destruct (inv_doctor_en_visita I r Hr Hn') as (x & Hx & Ex).
    exists x. split; [|exact Ex]. apply Hresto; auto. intros ->. congruence.
  - intros c' Hc' Hn'. apply HC in Hc'. destruct Hc' as (r & Hr & ->).
    destruct ((Cama.id_cama r =? Visita.id_cama v)
              && (Cama.id_sala r =? Visita.id_sala v)) eqn:E; [discriminate|].
    destruct (inv_cama_en_visita I r Hr Hn') as (x & Hx & Ex).
    exists x. split; [|exact Ex]. apply Hresto; auto. intros ->.
    unfold cama_de, clave_cama in Ex. injection Ex as E1 E2.
    rewrite <- E1, <- E2, !Z.eqb_refl in E. discriminate.
Qed.

Lemma invariante_bd_B : invariante bd_B.
Proof.
  constructor; unfold abiertas; simpl.
  - repeat constructor; simpl; intuition discriminate.
  - repeat constructor; simpl; intuition discriminate.
  - repeat constructor; simpl; intuition.
  - intros v [<-|[]]. exists (Doctor.mk 1 true false). simpl. auto.
  - intros v [<-|[]]. exists (Cama.mk 1 1 OCUPADA). simpl. auto.
  - repeat constructor; simpl; intuition.
  - repeat constructor; simpl; intuition.
  - intros d [<-|[<-|[]]]; simpl; intros H; [|discriminate].
    exists visita_A. auto.
  - intros c [<-|[<-|[]]]; simpl; intros H; [|discriminate].
    exists visita_A. auto.
Qed.

(** In [bd_desacoplada] both counts agree (1 and 1), [crear_visita_tx] opens a
    second visit on doctor 1 and bed 1, and then two doctors are not available
    while the open visits reference one. *)
Lemma C9_conservacion_contraejemplo :
  conservacion bd_desacoplada
  /\ let '(_, s', _) :=
       crear_visita_tx folio_ejemplo "2024-05-01T12:00:00" payload_A bd_desacoplada in
     ~ conservacion s'.
Proof.
  split.
  - split; reflexivity.
  - vm_compute. intros [H _]. discriminate.
Qed.

(** C9, as the code has it. Equal counts alone are not preserved; the
    coupling [invariante] is. From any database in which identities are keys,
    every open visit holds an existing doctor that is not available and an
    existing occupied bed, no two open visits hold the same doctor or bed, and
    every doctor that is not available and every occupied bed is held by an
    open visit, both equalities of the conservation property hold, and every
    [crear_visita_tx] (the store giving the new visit a folio that no visit
    has) and every [cerrar_visita_tx], whether it returns or raises, leaves a
    database with the same coupling and hence with both equalities. *)
Theorem C9_conservacion_desde_invariante (s : BD) :
  invariante s ->
  conservacion s
  /\ (forall genera_folio ahora payload,
        (forall s1, VISITAS_EMERGENCIA s1 = VISITAS_EMERGENCIA s ->
           ~ In (genera_folio s1 (siguiente_rowid (VISITAS_EMERGENCIA s)))
                (map Visita.folio (VISITAS_EMERGENCIA s))) ->
        let '(_, s', _) := crear_visita_tx genera_folio ahora payload s in
        invariante s' /\ conservacion s')
  /\ (forall ahora folio,
        let '(_, s', _) := cerrar_visita_tx ahora folio s in
        invariante s' /\ conservacion s').
Proof.
  intros I. split; [now apply invariante_conservacion|]. split.
  - intros genera_folio ahora payload Hf.
    destruct (crear_visita_tx genera_folio ahora payload s) as [[[a|e] s'] tr] eqn:E.
    + destruct (crear_visita_tx_exito_inv _ _ _ _ E) as (d & c & sa & Hr & Hp).
      rewrite (crear_visita_tx_exito genera_folio ahora payload Hr Hp) in E.
      injection E as _ <- _.
      assert (I' : invariante
                (mkBD (DOCTORES (reclamados d c sa s)) (CAMAS (reclamados d c sa s))
                      (VISITAS_EMERGENCIA s
                       ++ [visita_nueva genera_folio ahora payload d c sa s]))).
      { apply crear_conserva_invariante; auto. apply Hf. reflexivity. }
      split; [exact I' | now apply invariante_conservacion].
    + rewrite (crear_visita_tx_falla _ _ _ _ E).
      split; [exact I | now apply invariante_conservacion].
  - intros ahora folio. rewrite cerrar_visita_tx_eq.
    destruct (snd (cerrar_visita ahora folio s) =? 1)%nat eqn:E; cbn [negb].
    + apply Nat.eqb_eq in E.
      pose proof (cerrar_conserva_invariante ahora folio I E) as I'.
      split; [exact I' | now apply invariante_conservacion].
    + split; [exact I | now apply invariante_conservacion].
Qed.

Lemma C9_conservacion_desde_invariante_testigo :
  invariante bd_B
  /\ (forall s1, VISITAS_EMERGENCIA s1 = VISITAS_EMERGENCIA bd_B ->
        ~ In (folio_ejemplo s1 (siguiente_rowid (VISITAS_EMERGENCIA bd_B)))
             (map Visita.folio (VISITAS_EMERGENCIA bd_B)))
  /\ (let '(_, s', _) :=
         crear_visita_tx folio_ejemplo "2024-05-01T12:00:00" payload_A bd_B in
       invariante s' /\ conservacion s')
  /\ (let '(_, s', _) := cerrar_visita_tx "2024-05-01T12:00:00" "F1" bd_B in
       invariante s' /\ conservacion s').
Proof.
  assert (Hf : forall s1, VISITAS_EMERGENCIA s1 = VISITAS_EMERGENCIA bd_B ->
                 ~ In (folio_ejemplo s1 (siguiente_rowid (VISITAS_EMERGENCIA bd_B)))
                      (map Visita.folio (VISITAS_EMERGENCIA bd_B))).
  { intros s1 _ [H|[]]. discriminate. }
  split; [exact invariante_bd_B|]. split; [exact Hf|]. split.
  - exact (proj1 (proj2 (@C9_conservacion_desde_invariante bd_B invariante_bd_B))
             folio_ejemplo "2024-05-01T12:00:00" payload_A Hf).
  - exact (proj2 (proj2 (@C9_conservacion_desde_invariante bd_B invariante_bd_B))
             "2024-05-01T12:00:00" "F1").
Defined.

(** * Further properties of the code *)

(** ** [_seleccionar_cama_libre] *)

Lemma cama_leb_spec (c1 c2 : Cama.t) :
  cama_leb c1 c2 = true <->
  Cama.id_sala c1 < Cama.id_sala c2
  \/ (Cama.id_sala c1 = Cama.id_sala c2 /\ Cama.id_cama c1 <= Cama.id_cama c2).
Proof.
  unfold cama_leb.
  rewrite orb_true_iff, andb_true_iff, Z.ltb_lt, Z.eqb_eq, Z.leb_le. tauto.
Qed.

Lemma cama_leb_total (c1 c2 : Cama.t) :
  cama_leb c1 c2 = true \/ cama_leb c2 c1 = true.
Proof. rewrite !cama_leb_spec. lia. Qed.

Lemma cama_leb_trans (c1 c2 c3 : Cama.t) :
  cama_leb c1 c2 = true -> cama_leb c2 c3 = true -> cama_leb c1 c3 = true.
Proof. rewrite !cama_leb_spec. lia. Qed.

(** X1. On every connection [_seleccionar_cama_libre] executes one SELECT and
    leaves the database as it was; it returns the bed and room identities of
    a free bed that comes first in the order (id_sala, id_cama) among the free
    beds, or no bed when every bed is occupied. *)
Theorem X1_seleccionar_cama_libre (cn : Conn) :
  let (r, cn') := _seleccionar_cama_libre cn in
  bd cn' = bd cn
  /\ traza cn' = traza cn ++ [SELECT_cama_libre]
  /\ match r with
     | Ok (Some (id_cama, id_sala)) =>
         exists c, In c (CAMAS (bd cn)) /\ Cama.id_cama c = id_cama
           /\ Cama.id_sala c = id_sala /\ Cama.estado c = LIBRE
           /\ forall c', In c' (CAMAS (bd cn)) -> Cama.estado c' = LIBRE ->
                Cama.id_sala c < Cama.id_sala c'
                \/ (Cama.id_sala c = Cama.id_sala c'
                    /\ Cama.id_cama c <= Cama.id_cama c')
     | Ok None => forall c, In c (CAMAS (bd cn)) -> Cama.estado c = OCUPADA
     | Raise _ => False
     end.
Proof.
  unfold _seleccionar_cama_libre, consultar. reducir.
  split; [reflexivity|]. split; [reflexivity|].
  destruct (q_cama_libre (bd cn)) as [[i j]|] eqn:E.
  - unfold q_cama_libre in E.
    destruct (limit_1 _) as [c|] eqn:El; [|discriminate].
    simpl in E. injection E as <- <-.
    pose proof (limit_1_order_by_In _ _ El) as Hin. apply filter_In in Hin.
    destruct Hin as [Hin Hl].
    exists c. repeat split; auto.
    + unfold libre in Hl. now destruct (Cama.estado c).
    + intros c' Hc' Hl'. apply cama_leb_spec.
      apply (@limit_1_order_by_min _ cama_leb cama_leb_total cama_leb_trans _ _ El).
      apply filter_In. split; [exact Hc'|]. unfold libre. now rewrite Hl'.
  - intros c Hc. pose proof (proj1 (q_cama_libre_None _) E c Hc) as Hl.
    unfold libre in Hl. now destruct (Cama.estado c).
Qed.

(** ** [_ocupar_recursos] *)

Lemma rowcount_0 (A : Type) (p : A -> bool) (t : list A) :
  List.length (filter p t) = 0%nat -> forall r, In r t -> p r = false.
Proof.
  intros H r Hr. destruct (p r) eqn:E; auto.
  assert (Hin : In r (filter p t)) by (apply filter_In; auto).
  destruct (filter p t); [contradiction | discriminate].
Qed.

(** X2. [_ocupar_recursos] never raises and never touches the visits. It
    returns [True] exactly when the UPDATE of the doctor and the UPDATE of the
    bed each take one row; then every row of that doctor is not available and
    every row of that bed is occupied. When the UPDATE of the doctor does not
    take exactly one row, the UPDATE of the bed is not executed and the beds
    are as they were. *)
Theorem X2_ocupar_recursos_resultado (id_doctor id_cama id_sala : Z) (cn : Conn) :
  exists b cn',
    _ocupar_recursos id_doctor id_cama id_sala cn = (Ok b, cn')
    /\ (b = true <-> snd (ocupar_doctor id_doctor (bd cn)) = 1%nat
                     /\ snd (ocupar_cama id_cama id_sala (bd cn)) = 1%nat)
    /\ VISITAS_EMERGENCIA (bd cn') = VISITAS_EMERGENCIA (bd cn)
    /\ (b = true ->
        traza cn' = traza cn ++ [UPDATE_ocupar_doctor id_doctor;
                                 UPDATE_ocupar_cama id_cama id_sala]
        /\ (forall d, In d (DOCTORES (bd cn')) -> Doctor.id_doctor d = id_doctor ->
              Doctor.disponible d = false)
        /\ (forall c, In c (CAMAS (bd cn')) -> Cama.id_cama c = id_cama ->
              Cama.id_sala c = id_sala -> Cama.estado c = OCUPADA))
    /\ (snd (ocupar_doctor id_doctor (bd cn)) <> 1%nat ->
        traza cn' = traza cn ++ [UPDATE_ocupar_doctor id_doctor]
        /\ CAMAS (bd cn') = CAMAS (bd cn)).
Proof.
  rewrite _ocupar_recursos_eq.
  destruct (snd (ocupar_doctor id_doctor (bd cn)) =? 1)%nat eqn:E1; cbn [negb].
  - apply Nat.eqb_eq in E1.
    destruct (snd (ocupar_cama id_cama id_sala (bd cn)) =? 1)%nat eqn:E2; cbn [negb].
    + apply Nat.eqb_eq in E2. do 2 eexists. split; [reflexivity|]. reducir.
      split; [tauto|]. split; [reflexivity|]. split.
      * intros _. split; [reflexivity|]. split.
        -- intros d. exact (@reclamados_doctor_tomado id_doctor id_cama id_sala (bd cn) d).
        -- intros c. exact (@reclamados_cama_tomada id_doctor id_cama id_sala (bd cn) c).
      * intros H. contradiction.
    + apply Nat.eqb_neq in E2. do 2 eexists. split; [reflexivity|]. reducir.
      split; [split; [discriminate | tauto]|]. split; [reflexivity|].
      split; [discriminate|]. intros H. contradiction.
  - apply Nat.eqb_neq in E1. do 2 eexists. split; [reflexivity|]. reducir.
    split; [split; [discriminate | tauto]|]. split; [reflexivity|].
    split; [discriminate|]. intros _. split; reflexivity.
Qed.

Lemma con_disponible_ida_y_vuelta (r : Doctor.t) :
  Doctor.disponible r = true -> con_disponible true (con_disponible false r) = r.
Proof. destruct r as [i a d]. simpl. now intros ->. Qed.

(** Claiming a doctor and giving it back is the identity on a table in which
    the identity is a key. *)
Lemma liberar_tras_ocupar (d : Z) (s : BD) :
  NoDup (map Doctor.id_doctor (DOCTORES s)) ->
  snd (ocupar_doctor d s) = 1%nat ->
  DOCTORES (fst (liberar_doctor d (fst (ocupar_doctor d s)))) = DOCTORES s.
Proof.
  intros Hnd Hn. unfold liberar_doctor, ocupar_doctor, sql_update in *. simpl in *.
  destruct (@rowcount_pos _ _ (DOCTORES s) ltac:(rewrite Hn; lia)) as (r0 & Hr0 & Hp0).
  apply andb_true_iff in Hp0. destruct Hp0 as [Hid0 Hd0]. apply Z.eqb_eq in Hid0.
  rewrite map_map. rewrite <- (map_id (DOCTORES s)) at 2.
  apply map_ext_in. intros r Hr.
  destruct (Doctor.id_doctor r =? d) eqn:E; simpl.
  - apply Z.eqb_eq in E.
    assert (r = r0) as -> by (apply (NoDup_map_inj Doctor.id_doctor _ r r0 Hnd); auto;
                              congruence).
    rewrite Hd0. simpl. rewrite Hid0, Z.eqb_refl. now apply con_disponible_ida_y_vuelta.
  - now rewrite E.
Qed.

Lemma BD_ext (a b : BD) :
  DOCTORES a = DOCTORES b -> CAMAS a = CAMAS b ->
  VISITAS_EMERGENCIA a = VISITAS_EMERGENCIA b -> a = b.
Proof. destruct a, b. simpl. now intros -> -> ->. Qed.

Lemma ocupar_doctor_ninguna (d : Z) (s : BD) :
  snd (ocupar_doctor d s) = 0%nat -> fst (ocupar_doctor d s) = s.
Proof.
  intros H. unfold ocupar_doctor.
  rewrite sql_update_ninguna; [now destruct s | now apply rowcount_0].
Qed.

Lemma ocupar_cama_ninguna (c sa : Z) (s : BD) :
  snd (ocupar_cama c sa s) = 0%nat -> fst (ocupar_cama c sa s) = s.
Proof.
  intros H. unfold ocupar_cama.
  rewrite sql_update_ninguna; [now destruct s | now apply rowcount_0].
Qed.

(** X3. In a database where the identities of doctors and beds are keys, a
    call of [_ocupar_recursos] that returns [False] leaves the database of the
    connection exactly as it found it, before any rollback: either no UPDATE
    took a row, or the doctor was claimed and the compensating UPDATE gave
    back precisely that row. *)
Theorem X3_ocupar_recursos_compensa (id_doctor id_cama id_sala : Z) (cn cn' : Conn) :
  NoDup (map Doctor.id_doctor (DOCTORES (bd cn))) ->
  NoDup (map clave_cama (CAMAS (bd cn))) ->
  _ocupar_recursos id_doctor id_cama id_sala cn = (Ok false, cn') ->
  bd cn' = bd cn.
Proof.
  intros Hnd Hnc. rewrite _ocupar_recursos_eq.
  assert (Hle1 : (snd (ocupar_doctor id_doctor (bd cn)) <= 1)%nat).
  { unfold ocupar_doctor, sql_update; simpl.
    apply (@rowcount_clave _ _ Doctor.id_doctor id_doctor _ _ Hnd).
    intros r Hr. apply andb_true_iff in Hr. now apply Z.eqb_eq. }
  assert (Hle2 : (snd (ocupar_cama id_cama id_sala (bd cn)) <= 1)%nat).
  { unfold ocupar_cama, sql_update; simpl.
    apply (@rowcount_clave _ _ clave_cama (id_sala, id_cama) _ _ Hnc).
    intros r Hr. unfold es_cama in Hr. rewrite !andb_true_iff, !Z.eqb_eq in Hr.
    unfold clave_cama. f_equal; tauto. }
  destruct (snd (ocupar_doctor id_doctor (bd cn)) =? 1)%nat eqn:E1; cbn [negb].
  - apply Nat.eqb_eq in E1.
    destruct (snd (ocupar_cama id_cama id_sala (bd cn)) =? 1)%nat eqn:E2; cbn [negb];
      [discriminate|].
    apply Nat.eqb_neq in E2. intros [= <-].
    change (fst (liberar_doctor id_doctor (reclamados id_doctor id_cama id_sala (bd cn)))
            = bd cn).
    assert (H0 : snd (ocupar_cama id_cama id_sala (fst (ocupar_doctor id_doctor (bd cn))))
                 = 0%nat).
    { change (snd (ocupar_cama id_cama id_sala (bd cn)) = 0%nat). lia. }
    unfold reclamados. rewrite (ocupar_cama_ninguna _ _ _ H0).
    apply BD_ext; [now apply liberar_tras_ocupar | reflexivity | reflexivity].
  - apply Nat.eqb_neq in E1. intros [= <-].
    change (fst (ocupar_doctor id_doctor (bd cn)) = bd cn).
    apply ocupar_doctor_ninguna. lia.
Qed.

Lemma X3_ocupar_recursos_compensa_testigo :
  NoDup (map Doctor.id_doctor (DOCTORES bd_B))
  /\ NoDup (map clave_cama (CAMAS bd_B))
  /\ _ocupar_recursos 2 1 1 (mkConn bd_B []) =
       (Ok false, mkConn bd_B [UPDATE_ocupar_doctor 2; UPDATE_ocupar_cama 1 1;
                               UPDATE_liberar_doctor 2])
  /\ bd (mkConn bd_B [UPDATE_ocupar_doctor 2; UPDATE_ocupar_cama 1 1;
                      UPDATE_liberar_doctor 2]) = bd (mkConn bd_B []).
Proof.
  assert (H1 : NoDup (map Doctor.id_doctor (DOCTORES bd_B)))
    by (repeat constructor; simpl; intuition discriminate).
  assert (H2 : NoDup (map clave_cama (CAMAS bd_B)))
    by (repeat constructor; simpl; intuition discriminate).
  split; [exact H1|]. split; [exact H2|]. split; [reflexivity|].
  exact (@X3_ocupar_recursos_compensa 2 1 1 (mkConn bd_B []) _ H1 H2 eq_refl).
Defined.

(** ** [crear_visita_tx] *)

(** What a returned assignment says about the call: the selections, the two
    claims and the database left behind. *)
Lemma crear_visita_tx_Ok
    (genera_folio : BD -> Z -> string) (ahora : string) (payload : Payload.t)
    (s s' : BD) (a : Asignacion.t) (tr : list Sentencia) :
  crear_visita_tx genera_folio ahora payload s = (Ok a, s', tr) ->
  exists d c sa,
    reclamo_posible s d c sa /\ primera_faltante payload = None
    /\ a = Asignacion.mk (Visita.folio (visita_nueva genera_folio ahora payload d c sa s))
                         d c sa
    /\ s' = mkBD (DOCTORES (reclamados d c sa s)) (CAMAS (reclamados d c sa s))
                 (VISITAS_EMERGENCIA s
                  ++ [visita_nueva genera_folio ahora payload d c sa s]).
Proof.
  intros E.
  destruct (crear_visita_tx_exito_inv _ _ _ _ E) as (d & c & sa & Hr & Hp).
  rewrite (crear_visita_tx_exito genera_folio ahora payload Hr Hp) in E.
  injection E as <- <- _. exists d, c, sa.
  split; [exact Hr|]. split; [apply Hp|]. auto.
Qed.

(** X4. Two calls of [crear_visita_tx] in a row that both return never assign
    the same doctor and never assign the same bed of the same room. *)
Theorem X4_aperturas_sucesivas_distintas
    (genera_folio : BD -> Z -> string) (ahora1 ahora2 : string)
    (p1 p2 : Payload.t) (s s1 s2 : BD) (a1 a2 : Asignacion.t)
    (tr1 tr2 : list Sentencia) :
  crear_visita_tx genera_folio ahora1 p1 s = (Ok a1, s1, tr1) ->
  crear_visita_tx genera_folio ahora2 p2 s1 = (Ok a2, s2, tr2) ->
  Asignacion.id_doctor a2 <> Asignacion.id_doctor a1
  /\ (Asignacion.id_cama a2, Asignacion.id_sala a2)
     <> (Asignacion.id_cama a1, Asignacion.id_sala a1).
Proof.
  intros E1 E2.
  destruct (crear_visita_tx_Ok _ _ _ _ E1) as (d & c & sa & _ & _ & -> & ->).
  destruct (crear_visita_tx_Ok _ _ _ _ E2)
    as (d2 & c2 & sa2 & (Hqd & _ & Hqc & _) & _ & -> & _).
  cbn [Asignacion.id_doctor Asignacion.id_cama Asignacion.id_sala].
  destruct (q_doctor_disponible_Some _ Hqd) as (r & Hr & Hid & He & _).
  destruct (q_cama_libre_Some _ Hqc) as (b & Hb & Hb1 & Hb2 & Hb3).
  cbn [DOCTORES CAMAS] in Hr, Hb. split.
  - intros ->. unfold elegible in He.
    rewrite (@reclamados_doctor_tomado d c sa s r Hr Hid), andb_false_r in He.
    discriminate.
  - intros [= -> ->].
    rewrite (@reclamados_cama_tomada d c sa s b Hb Hb1 Hb2) in Hb3. discriminate.
Qed.

Lemma X4_aperturas_sucesivas_distintas_testigo :
  exists s2,
    crear_visita_tx folio_ejemplo "2024-05-01T10:00:00" payload_A bd_2 =
      (Ok (Asignacion.mk "F1" 1 1 1), bd_B,
       [PRAGMA_foreign_keys; BEGIN_IMMEDIATE; SELECT_doctor_disponible;
        SELECT_cama_libre; UPDATE_ocupar_doctor 1; UPDATE_ocupar_cama 1 1;
        INSERT_visita; SELECT_folio_insertado; COMMIT])
    /\ crear_visita_tx folio_ejemplo "2024-05-01T10:05:00" payload_A bd_B =
         (Ok (Asignacion.mk "F2" 2 2 1), s2,
          [PRAGMA_foreign_keys; BEGIN_IMMEDIATE; SELECT_doctor_disponible;
           SELECT_cama_libre; UPDATE_ocupar_doctor 2; UPDATE_ocupar_cama 2 1;
           INSERT_visita; SELECT_folio_insertado; COMMIT])
    /\ 2 <> 1
    /\ (2, 1) <> (1, 1).
Proof.
  eexists.
  split; [reflexivity|]. split; [reflexivity|].
  exact (@X4_aperturas_sucesivas_distintas folio_ejemplo
           "2024-05-01T10:00:00" "2024-05-01T10:05:00" payload_A payload_A
           bd_2 bd_B _ (Asignacion.mk "F1" 1 1 1) (Asignacion.mk "F2" 2 2 1)
           _ _ eq_refl eq_refl).
Defined.

Lemma con_estado_ida_y_vuelta (r : Cama.t) :
  Cama.estado r = LIBRE -> con_estado LIBRE (con_estado OCUPADA r) = r.
Proof. destruct r as [i j e]. simpl. now intros ->. Qed.

(** Claiming a bed and releasing it by its identities is the identity on a
    table in which (room, bed) is a key. *)
Lemma liberar_cama_tras_ocupar (c sa : Z) (s : BD) :
  NoDup (map clave_cama (CAMAS s)) ->
  snd (ocupar_cama c sa s) = 1%nat ->
  map (fun r => if igual_a (Cama.id_cama r) (Some c) && igual_a (Cama.id_sala r) (Some sa)
                then con_estado LIBRE r else r)
      (CAMAS (fst (ocupar_cama c sa s))) = CAMAS s.
Proof.
  intros Hnd Hn. unfold ocupar_cama, sql_update in *. simpl in *.
  destruct (@rowcount_pos _ _ (CAMAS s) ltac:(rewrite Hn; lia)) as (r0 & Hr0 & Hp0).
  apply andb_true_iff in Hp0. destruct Hp0 as [Hk0 Hl0].
  assert (He0 : Cama.estado r0 = LIBRE)
    by (unfold libre in Hl0; now destruct (Cama.estado r0)).
  rewrite map_map. rewrite <- (map_id (CAMAS s)) at 2.
  apply map_ext_in. intros r Hr.
  destruct (es_cama c sa r) eqn:E; simpl.
  - assert (r = r0) as ->.
    { apply (NoDup_map_inj clave_cama _ r r0 Hnd); auto.
      unfold es_cama in E, Hk0. rewrite andb_true_iff, !Z.eqb_eq in E, Hk0.
      unfold clave_cama. f_equal; lia. }
    rewrite Hl0. simpl. fold (es_cama c sa r0). rewrite Hk0.
    now apply con_estado_ida_y_vuelta.
  - fold (es_cama c sa r). now rewrite E.
Qed.

(** X5. In a database where the identities of doctors, beds and visits are
    keys, opening a visit (the store giving it a folio that no visit has) and
    then closing the returned folio gives back the resources exactly: the
    close returns normally, the doctors and the beds are again what they were
    before the visit was opened, and the visits are the earlier ones followed
    by the new visit, closed at the time of the close. *)
Theorem X5_abrir_y_cerrar
    (genera_folio : BD -> Z -> string) (ahora ahora' : string) (payload : Payload.t)
    (s s1 : BD) (a : Asignacion.t) (tr1 : list Sentencia) :
  NoDup (map Doctor.id_doctor (DOCTORES s)) ->
  NoDup (map clave_cama (CAMAS s)) ->
  NoDup (map Visita.folio (VISITAS_EMERGENCIA s)) ->
  crear_visita_tx genera_folio ahora payload s = (Ok a, s1, tr1) ->
  ~ In (Asignacion.folio a) (map Visita.folio (VISITAS_EMERGENCIA s)) ->
  exists s2 tr2 v,
    cerrar_visita_tx ahora' (Asignacion.folio a) s1 = (Ok tt, s2, tr2)
    /\ DOCTORES s2 = DOCTORES s
    /\ CAMAS s2 = CAMAS s
    /\ VISITAS_EMERGENCIA s2 = VISITAS_EMERGENCIA s ++ [v]
    /\ Visita.folio v = Asignacion.folio a
    /\ Visita.id_doctor v = Asignacion.id_doctor a
    /\ Visita.id_cama v = Asignacion.id_cama a
    /\ Visita.id_sala v = Asignacion.id_sala a
    /\ Visita.fecha_hora_inicio v = ahora
    /\ Visita.fecha_hora_cierre v = Some ahora'
    /\ Visita.estado v = CERRADA.
Proof.
  intros Hnd Hnc Hnf E Hfresco.
  destruct (crear_visita_tx_Ok _ _ _ _ E) as (d & c & sa & Hr & _ & -> & ->).
  destruct Hr as (_ & _ & _ & _ & Hn1 & Hn2).
  set (vn := visita_nueva genera_folio ahora payload d c sa s) in *.
  set (s1 := mkBD (DOCTORES (reclamados d c sa s)) (CAMAS (reclamados d c sa s))
                  (VISITAS_EMERGENCIA s ++ [vn])).
  cbn [Asignacion.folio Asignacion.id_doctor Asignacion.id_cama Asignacion.id_sala] in *.
  assert (Hnf1 : NoDup (map Visita.folio (VISITAS_EMERGENCIA s1))).
  { unfold s1. cbn [VISITAS_EMERGENCIA]. rewrite map_app. now apply NoDup_snoc. }
  assert (Hv : In vn (VISITAS_EMERGENCIA s1)).
  { unfold s1. cbn [VISITAS_EMERGENCIA]. apply in_or_app. right. now left. }
  rewrite cerrar_visita_tx_eq,
    (cerrar_visita_rowcount_1 ahora' s1 vn Hnf1 Hv eq_refl).
  cbn [negb Nat.eqb]. exists (cerrada ahora' (Visita.folio vn) s1).
  eexists. exists (con_cierre ahora' vn). split; [reflexivity|].
  split; [|split; [|split]].
  - rewrite cerrada_DOCTORES, (subconsulta_unica Visita.id_doctor s1 vn Hnf1 Hv).
    exact (liberar_tras_ocupar d s Hnd Hn1).
  - rewrite cerrada_CAMAS, (subconsulta_unica Visita.id_cama s1 vn Hnf1 Hv),
      (subconsulta_unica Visita.id_sala s1 vn Hnf1 Hv).
    exact (liberar_cama_tras_ocupar c sa s Hnc Hn2).
  - rewrite cerrada_VISITAS. unfold s1. cbn [VISITAS_EMERGENCIA]. rewrite map_app.
    f_equal.
    + rewrite <- (map_id (VISITAS_EMERGENCIA s)) at 2. apply map_ext_in.
      intros v Hin. destruct (con_folio (Visita.folio vn) v) eqn:Ef; [|reflexivity].
      exfalso. apply Hfresco. apply con_folio_true in Ef. rewrite <- Ef.
      now apply in_map.
    + simpl. unfold con_folio. now rewrite String.eqb_refl.
  - simpl. auto 10.
Qed.

Lemma X5_abrir_y_cerrar_testigo :
  NoDup (map Doctor.id_doctor (DOCTORES bd_A))
  /\ NoDup (map clave_cama (CAMAS bd_A))
  /\ NoDup (map Visita.folio (VISITAS_EMERGENCIA bd_A))
  /\ crear_visita_tx folio_ejemplo "2024-05-01T10:00:00" payload_A bd_A =
       (Ok (Asignacion.mk "F1" 1 1 1), bd_A_abierta,
        [PRAGMA_foreign_keys; BEGIN_IMMEDIATE; SELECT_doctor_disponible;
         SELECT_cama_libre; UPDATE_ocupar_doctor 1; UPDATE_ocupar_cama 1 1;
         INSERT_visita; SELECT_folio_insertado; COMMIT])
  /\ ~ In "F1" (map Visita.folio (VISITAS_EMERGENCIA bd_A))
  /\ exists s2 tr2 v,
      cerrar_visita_tx "2024-05-01T11:00:00" "F1" bd_A_abierta = (Ok tt, s2, tr2)
      /\ DOCTORES s2 = DOCTORES bd_A
      /\ CAMAS s2 = CAMAS bd_A
      /\ VISITAS_EMERGENCIA s2 = VISITAS_EMERGENCIA bd_A ++ [v]
      /\ Visita.folio v = "F1"
      /\ Visita.id_doctor v = 1
      /\ Visita.id_cama v = 1
      /\ Visita.id_sala v = 1
      /\ Visita.fecha_hora_inicio v = "2024-05-01T10:00:00"
      /\ Visita.fecha_hora_cierre v = Some "2024-05-01T11:00:00"
      /\ Visita.estado v = CERRADA.
Proof.
  assert (H1 : NoDup (map Doctor.id_doctor (DOCTORES bd_A)))
    by (repeat constructor; simpl; intuition).
  assert (H2 : NoDup (map clave_cama (CAMAS bd_A)))
    by (repeat constructor; simpl; intuition).
  assert (H3 : NoDup (map Visita.folio (VISITAS_EMERGENCIA bd_A))) by constructor.
  assert (H5 : ~ In "F1" (map Visita.folio (VISITAS_EMERGENCIA bd_A)))
    by (intros []).
  split; [exact H1|]. split; [exact H2|]. split; [exact H3|].
  split; [reflexivity|]. split; [exact H5|].
  exact (@X5_abrir_y_cerrar folio_ejemplo "2024-05-01T10:00:00" "2024-05-01T11:00:00"
           payload_A bd_A bd_A_abierta (Asignacion.mk "F1" 1 1 1) _
           H1 H2 H3 eq_refl H5).
Defined.

(** X6. In a database where the identities of doctors and beds are keys and
    no eligible doctor and no free bed has the identity 0, with a doctor that
    is active and available, a free bed and a payload that has the three
    required keys, whose patient, worker and priority (an integer, when it is
    given) fit a signed 64-bit integer, [crear_visita_tx] returns the doctor
    and the bed that the two selections propose, leaves every row of that
    doctor not available and every row of that bed occupied, and adds one
    visit to the visits there were: open, started at the time of the call, not
    closed, with the patient, worker and origin of the payload, its priority
    or 3 when it has none, and its reason or the empty text when it has
    none. *)
Theorem X6_crear_visita_exito
    (genera_folio : BD -> Z -> string) (ahora : string) (payload : Payload.t) (s : BD)
    (paciente trabajador : Z) (origen : string) :
  NoDup (map Doctor.id_doctor (DOCTORES s)) ->
  NoDup (map clave_cama (CAMAS s)) ->
  (exists d, In d (DOCTORES s) /\ Doctor.activo d = true /\ Doctor.disponible d = true) ->
  (exists c, In c (CAMAS s) /\ Cama.estado c = LIBRE) ->
  (forall d, In d (DOCTORES s) -> Doctor.activo d = true -> Doctor.disponible d = true ->
             Doctor.id_doctor d <> 0) ->
  (forall c, In c (CAMAS s) -> Cama.estado c = LIBRE -> Cama.id_cama c <> 0) ->
  Payload.id_paciente payload = Some paciente ->
  Payload.id_trabajador payload = Some trabajador ->
  Payload.origen_solicitud payload = Some origen ->
  - 2 ^ 63 <= paciente < 2 ^ 63 ->
  - 2 ^ 63 <= trabajador < 2 ^ 63 ->
  (forall n, Payload.prioridad payload = Some n -> - 2 ^ 63 <= n < 2 ^ 63) ->
  exists a s' tr v,
    crear_visita_tx genera_folio ahora payload s = (Ok a, s', tr)
    /\ q_doctor_disponible s = Some (Asignacion.id_doctor a)
    /\ q_cama_libre s = Some (Asignacion.id_cama a, Asignacion.id_sala a)
    /\ (forall d, In d (DOCTORES s') -> Doctor.id_doctor d = Asignacion.id_doctor a ->
          Doctor.disponible d = false)
    /\ (forall c, In c (CAMAS s') -> Cama.id_cama c = Asignacion.id_cama a ->
          Cama.id_sala c = Asignacion.id_sala a -> Cama.estado c = OCUPADA)
    /\ Permutation (VISITAS_EMERGENCIA s') (v :: VISITAS_EMERGENCIA s)
    /\ Visita.folio v = Asignacion.folio a
    /\ Visita.id_paciente v = paciente
    /\ Visita.id_doctor v = Asignacion.id_doctor a
    /\ Visita.id_trabajador v = trabajador
    /\ Visita.id_sala v = Asignacion.id_sala a
    /\ Visita.id_cama v = Asignacion.id_cama a
    /\ Visita.origen_solicitud v = origen
    /\ Visita.prioridad v = match Payload.prioridad payload with
                            | Some n => n | None => 3 end
    /\ Visita.motivo v = match Payload.motivo payload with
                         | Some m => m | None => "" end
    /\ Visita.fecha_hora_inicio v = ahora
    /\ Visita.fecha_hora_cierre v = None
    /\ Visita.estado v = ABIERTA.
Proof.
  intros Hnd Hnc (d0 & Hd0 & Ha0 & Hv0) (c0 & Hc0 & He0) Hd Hc Hp1 Hp2 Hp3
    Hr1 Hr2 Hr3.
  assert (Hp : primera_faltante payload = None)
    by (unfold primera_faltante; now rewrite Hp1, Hp2, Hp3).
  assert (Hen : forall n, - 2 ^ 63 <= n < 2 ^ 63 -> enlazable n = true).
  { intros n Hn. unfold enlazable. apply andb_true_iff.
    rewrite Z.leb_le, Z.ltb_lt. exact Hn. }
  assert (Hb : payload_enlazable payload = true).
  { unfold payload_enlazable. rewrite Hp1, Hp2. cbn [get].
    rewrite (Hen _ Hr1), (Hen _ Hr2). cbn [andb]. unfold int.
    destruct (Payload.prioridad payload) as [n|]; cbn [get];
      [apply Hen, Hr3; reflexivity | reflexivity]. }
  destruct (@crear_visita_tx_exito_general genera_folio ahora payload s Hnd Hnc)
    as (d & c & sa & Hqd & Hqc & E); auto.
  - exists d0. split; [exact Hd0|]. unfold elegible. now rewrite Ha0, Hv0.
  - exists c0. split; [exact Hc0|]. unfold libre. now rewrite He0.
  - intros x Hx Hel. unfold elegible in Hel. apply andb_true_iff in Hel.
    apply Hd; tauto.
  - intros x Hx Hl. apply Hc; auto. unfold libre in Hl. now destruct (Cama.estado x).
  - rewrite E. do 3 eexists. exists (visita_nueva genera_folio ahora payload d c sa s).
    split; [reflexivity|].
    cbn [Asignacion.folio Asignacion.id_doctor Asignacion.id_cama Asignacion.id_sala
         DOCTORES CAMAS VISITAS_EMERGENCIA].
    split; [exact Hqd|]. split; [exact Hqc|]. split.
    { intros x. exact (@reclamados_doctor_tomado d c sa s x). }
    split.
    { intros x. exact (@reclamados_cama_tomada d c sa s x). }
    split.
    { apply Permutation_sym, Permutation_cons_append. }
    simpl. rewrite Hp1, Hp2, Hp3. simpl.
    repeat split; reflexivity.
Qed.

Lemma X6_crear_visita_exito_testigo :
  NoDup (map Doctor.id_doctor (DOCTORES bd_B))
  /\ NoDup (map clave_cama (CAMAS bd_B))
  /\ (exists d, In d (DOCTORES bd_B)
                /\ Doctor.activo d = true /\ Doctor.disponible d = true)
  /\ (exists c, In c (CAMAS bd_B) /\ Cama.estado c = LIBRE)
  /\ (forall d, In d (DOCTORES bd_B) -> Doctor.activo d = true ->
                Doctor.disponible d = true -> Doctor.id_doctor d <> 0)
  /\ (forall c, In c (CAMAS bd_B) -> Cama.estado c = LIBRE -> Cama.id_cama c <> 0)
  /\ - 2 ^ 63 <= 1 < 2 ^ 63
  /\ - 2 ^ 63 <= 9 < 2 ^ 63
  /\ (forall n, Payload.prioridad payload_completo = Some n -> - 2 ^ 63 <= n < 2 ^ 63)
  /\ exists a s' tr v,
      crear_visita_tx folio_ejemplo "2024-05-01T10:05:00" payload_completo bd_B = (Ok a, s', tr)
      /\ q_doctor_disponible bd_B = Some (Asignacion.id_doctor a)
      /\ q_cama_libre bd_B = Some (Asignacion.id_cama a, Asignacion.id_sala a)
      /\ (forall d, In d (DOCTORES s') -> Doctor.id_doctor d = Asignacion.id_doctor a ->
            Doctor.disponible d = false)
      /\ (forall c, In c (CAMAS s') -> Cama.id_cama c = Asignacion.id_cama a ->
            Cama.id_sala c = Asignacion.id_sala a -> Cama.estado c = OCUPADA)
      /\ Permutation (VISITAS_EMERGENCIA s') (v :: VISITAS_EMERGENCIA bd_B)
      /\ Visita.folio v = Asignacion.folio a
      /\ Visita.id_paciente v = 1
      /\ Visita.id_doctor v = Asignacion.id_doctor a
      /\ Visita.id_trabajador v = 9
      /\ Visita.id_sala v = Asignacion.id_sala a
      /\ Visita.id_cama v = Asignacion.id_cama a
      /\ Visita.origen_solicitud v = "walk-in"
      /\ Visita.prioridad v = 1
      /\ Visita.motivo v = "dolor toracico"
      /\ Visita.fecha_hora_inicio v = "2024-05-01T10:05:00"
      /\ Visita.fecha_hora_cierre v = None
      /\ Visita.estado v = ABIERTA.
Proof.
  assert (H1 : NoDup (map Doctor.id_doctor (DOCTORES bd_B)))
    by (repeat constructor; simpl; intuition discriminate).
  assert (H2 : NoDup (map clave_cama (CAMAS bd_B)))
    by (repeat constructor; simpl; intuition discriminate).
  assert (H3 : exists d, In d (DOCTORES bd_B)
                         /\ Doctor.activo d = true /\ Doctor.disponible d = true)
    by (exists (Doctor.mk 2 true true); simpl; auto).
  assert (H4 : exists c, In c (CAMAS bd_B) /\ Cama.estado c = LIBRE)
    by (exists (Cama.mk 2 1 LIBRE); simpl; auto).
  assert (H5 : forall d, In d (DOCTORES bd_B) -> Doctor.activo d = true ->
                 Doctor.disponible d = true -> Doctor.id_doctor d <> 0)
    by (intros d [<-|[<-|[]]]; simpl; discriminate).
  assert (H6 : forall c, In c (CAMAS bd_B) -> Cama.estado c = LIBRE ->
                 Cama.id_cama c <> 0)
    by (intros c [<-|[<-|[]]]; simpl; discriminate).
  assert (H7 : - 2 ^ 63 <= 1 < 2 ^ 63) by lia.
  assert (H8 : - 2 ^ 63 <= 9 < 2 ^ 63) by lia.
  assert (H9 : forall n, Payload.prioridad payload_completo = Some n ->
                 - 2 ^ 63 <= n < 2 ^ 63) by (intros n [= <-]; lia).
  split; [exact H1|]. split; [exact H2|]. split; [exact H3|]. split; [exact H4|].
  split; [exact H5|]. split; [exact H6|]. split; [exact H7|]. split; [exact H8|].
  split; [exact H9|].
  exact (@X6_crear_visita_exito folio_ejemplo "2024-05-01T10:05:00" payload_completo bd_B
           1 9 "walk-in" H1 H2 H3 H4 H5 H6 eq_refl eq_refl eq_refl H7 H8 H9).
Defined.

Lemma reclamados_activos d c sa s :
  map Doctor.activo (DOCTORES (reclamados d c sa s)) = map Doctor.activo (DOCTORES s).
Proof.
  unfold reclamados, ocupar_cama, ocupar_doctor, sql_update; reducir.
  rewrite map_map. apply map_ext. intros r. now destruct (_ && _).
Qed.

(** X7. Whatever [crear_visita_tx] returns or raises, it adds, removes and
    reorders no doctor and no bed and never changes [activo]; when it returns
    an assignment, every doctor other than the assigned one and every bed
    other than the assigned one is left exactly as it was. *)
Theorem X7_crear_visita_no_toca_otros
    (genera_folio : BD -> Z -> string) (ahora : string) (payload : Payload.t) (s : BD) :
  let '(r, s', _) := crear_visita_tx genera_folio ahora payload s in
  map Doctor.id_doctor (DOCTORES s') = map Doctor.id_doctor (DOCTORES s)
  /\ map Doctor.activo (DOCTORES s') = map Doctor.activo (DOCTORES s)
  /\ map clave_cama (CAMAS s') = map clave_cama (CAMAS s)
  /\ match r with
     | Ok a =>
         (forall d, In d (DOCTORES s) ->
            Doctor.id_doctor d <> Asignacion.id_doctor a -> In d (DOCTORES s'))
         /\ (forall c, In c (CAMAS s) ->
               (Cama.id_cama c, Cama.id_sala c)
               <> (Asignacion.id_cama a, Asignacion.id_sala a) -> In c (CAMAS s'))
     | Raise _ => True
     end.
Proof.
  destruct (crear_visita_tx genera_folio ahora payload s) as [[[a|e] s'] tr] eqn:E.
  - destruct (crear_visita_tx_Ok _ _ _ _ E) as (d & c & sa & _ & _ & -> & ->).
    cbn [DOCTORES CAMAS Asignacion.id_doctor Asignacion.id_cama Asignacion.id_sala].
    split; [apply reclamados_claves_doctores|].
    split; [apply reclamados_activos|].
    split; [apply reclamados_claves_camas|]. split.
    + intros x Hx Hne. apply reclamados_doctor_In. exists x. split; [exact Hx|].
      apply Z.eqb_neq in Hne. now rewrite Hne.
    + intros x Hx Hne. apply reclamados_cama_In. exists x. split; [exact Hx|].
      unfold es_cama.
      destruct (Cama.id_cama x =? c) eqn:E1; destruct (Cama.id_sala x =? sa) eqn:E2;
        simpl; auto.
      apply Z.eqb_eq in E1, E2. congruence.
  - rewrite (crear_visita_tx_falla _ _ _ _ E). auto.
Qed.

(** X8. Whatever [cerrar_visita_tx] returns or raises, it adds, removes and
    reorders no doctor, no bed and no visit and never changes [activo]; every
    visit is left exactly as it was, except an open visit of the given folio,
    which becomes the same row closed at the time of the call. No visit is
    ever reopened and no closed visit is touched. *)
Theorem X8_cerrar_visita_conserva (ahora folio : string) (s : BD) :
  let '(_, s', _) := cerrar_visita_tx ahora folio s in
  map Doctor.id_doctor (DOCTORES s') = map Doctor.id_doctor (DOCTORES s)
  /\ map Doctor.activo (DOCTORES s') = map Doctor.activo (DOCTORES s)
  /\ map clave_cama (CAMAS s') = map clave_cama (CAMAS s)
  /\ Forall2 (fun v v' =>
                v' = v
                \/ (Visita.folio v = folio /\ Visita.estado v = ABIERTA
                    /\ v' = con_cierre ahora v))
             (VISITAS_EMERGENCIA s) (VISITAS_EMERGENCIA s').
Proof.
  rewrite cerrar_visita_tx_eq.
  assert (Hrefl : Forall2 (fun v v' : Visita.t =>
                     v' = v \/ (Visita.folio v = folio /\ Visita.estado v = ABIERTA
                                /\ v' = con_cierre ahora v))
                    (VISITAS_EMERGENCIA s) (VISITAS_EMERGENCIA s)).
  { induction (VISITAS_EMERGENCIA s); constructor; auto. }
  destruct (negb _); [auto|].
  split; [apply cerrada_claves_doctores|]. split.
  { rewrite cerrada_DOCTORES, map_map. apply map_ext. intros d.
    now destruct (igual_a _ _). }
  split; [apply cerrada_claves_camas|].
  rewrite cerrada_VISITAS. clear Hrefl.
  induction (VISITAS_EMERGENCIA s) as [|v vs IH]; simpl; constructor; auto.
  destruct (con_folio folio v && abierta v) eqn:E; [|now left].
  apply andb_true_iff in E. destruct E as [E1 E2].
  right. split; [now apply con_folio_true|]. split; [now apply abierta_true | reflexivity].
Qed.

(** ** [get_visitas_abiertas] *)

Section Orden.
Variable A : Type.
Variable leb : A -> A -> bool.

Lemma insertar_Permutation (x : A) (l : list A) :
  Permutation (insertar leb x l) (x :: l).
Proof.
  induction l as [|y l IH]; simpl; auto.
  destruct (leb x y); auto.
  apply perm_trans with (y :: x :: l); [now constructor | apply perm_swap].
Qed.

Lemma order_by_Permutation (l : list A) : Permutation (order_by leb l) l.
Proof.
  induction l as [|x l IH]; simpl; auto.
  apply perm_trans with (x :: order_by leb l); [apply insertar_Permutation | auto].
Qed.

Hypothesis leb_total : forall x y, leb x y = true \/ leb y x = true.

Lemma insertar_Sorted (x : A) (l : list A) :
  Sorted (fun a b => leb a b = true) l ->
  Sorted (fun a b => leb a b = true) (insertar leb x l).
Proof.
  induction 1 as [|y l Hs IH Hhd]; simpl.
  - repeat constructor.
  - destruct (leb x y) eqn:E.
    + constructor; [now constructor | now constructor].
    + constructor; [exact IH|].
      destruct l as [|z l]; simpl.
      * constructor. destruct (leb_total x y); congruence.
      * inversion Hhd; subst. destruct (leb x z); constructor; auto.
        destruct (leb_total x y); congruence.
Qed.

Lemma order_by_Sorted (l : list A) :
  Sorted (fun a b => leb a b = true) (order_by leb l).
Proof.
  induction l as [|x l IH]; simpl; [constructor | now apply insertar_Sorted].
Qed.
End Orden.

Lemma Sorted_map (A B : Type) (R : A -> A -> Prop) (R' : B -> B -> Prop) (f : A -> B)
      (l : list A) :
  (forall a b, R a b -> R' (f a) (f b)) ->
  Sorted R l -> Sorted R' (map f l).
Proof.
  intros HR. induction 1 as [|x l Hs IH Hhd]; simpl; constructor; auto.
  destruct Hhd; simpl; constructor; auto.
Qed.

(** X10. [get_visitas_abiertas] lists the open visits and only them, one row
    for each, with the columns of the visit, the latest start first. *)
Theorem X10_get_visitas_abiertas (s : BD) :
  Permutation (get_visitas_abiertas s)
              (map fila_de (filter abierta (VISITAS_EMERGENCIA s)))
  /\ Sorted (fun f1 f2 => String.leb (FilaAbierta.fecha_hora_inicio f2)
                                     (FilaAbierta.fecha_hora_inicio f1) = true)
            (get_visitas_abiertas s).
Proof.
  unfold get_visitas_abiertas. split.
  - apply Permutation_map, order_by_Permutation.
  - apply Sorted_map with (R := fun a b => mas_reciente a b = true); [auto|].
    apply order_by_Sorted. intros x y. apply String.leb_total.
Qed.

(** X11. When [crear_visita_tx] returns, the listing of open visits is the
    earlier listing with one more row, which carries the folio, doctor, bed
    and room of the assignment and the time of the call. *)
Theorem X11_listado_tras_abrir
    (genera_folio : BD -> Z -> string) (ahora : string) (payload : Payload.t)
    (s s' : BD) (a : Asignacion.t) (tr : list Sentencia) :
  crear_visita_tx genera_folio ahora payload s = (Ok a, s', tr) ->
  exists f,
    Permutation (get_visitas_abiertas s') (f :: get_visitas_abiertas s)
    /\ FilaAbierta.folio f = Asignacion.folio a
    /\ FilaAbierta.id_doctor f = Asignacion.id_doctor a
    /\ FilaAbierta.id_cama f = Asignacion.id_cama a
    /\ FilaAbierta.id_sala f = Asignacion.id_sala a
    /\ FilaAbierta.fecha_hora_inicio f = ahora.
Proof.
  intros E.
  destruct (crear_visita_tx_Ok _ _ _ _ E) as (d & c & sa & _ & _ & -> & ->).
  exists (fila_de (visita_nueva genera_folio ahora payload d c sa s)).
  split; [|simpl; auto].
  unfold get_visitas_abiertas. cbn [VISITAS_EMERGENCIA].
  rewrite <- map_cons. apply Permutation_map.
  eapply perm_trans; [apply order_by_Permutation|].
  rewrite filter_app. simpl.
  eapply perm_trans; [apply Permutation_app_comm|]. simpl.
  constructor. apply Permutation_sym, order_by_Permutation.
Qed.

Lemma X11_listado_tras_abrir_testigo :
  crear_visita_tx folio_ejemplo "2024-05-01T10:05:00" payload_A bd_B =
    (Ok (Asignacion.mk "F2" 2 2 1),
     snd (fst (crear_visita_tx folio_ejemplo "2024-05-01T10:05:00" payload_A bd_B)),
     [PRAGMA_foreign_keys; BEGIN_IMMEDIATE; SELECT_doctor_disponible;
      SELECT_cama_libre; UPDATE_ocupar_doctor 2; UPDATE_ocupar_cama 2 1;
      INSERT_visita; SELECT_folio_insertado; COMMIT])
  /\ exists f,
      Permutation
        (get_visitas_abiertas
           (snd (fst (crear_visita_tx folio_ejemplo "2024-05-01T10:05:00"
                        payload_A bd_B))))
        (f :: get_visitas_abiertas bd_B)
      /\ FilaAbierta.folio f = "F2"
      /\ FilaAbierta.id_doctor f = 2
      /\ FilaAbierta.id_cama f = 2
      /\ FilaAbierta.id_sala f = 1
      /\ FilaAbierta.fecha_hora_inicio f = "2024-05-01T10:05:00".
Proof.
  split; [reflexivity|].
  exact (@X11_listado_tras_abrir folio_ejemplo "2024-05-01T10:05:00" payload_A bd_B
           _ (Asignacion.mk "F2" 2 2 1) _ eq_refl).
Defined.

(** X12. When [cerrar_visita_tx] returns, the listing of open visits has
    lost the rows of the closed folio and nothing else: a row is listed
    afterwards exactly when it was listed before and has another folio. *)
Theorem X12_listado_tras_cerrar (ahora folio : string) (s s' : BD)
    (tr : list Sentencia) :
  cerrar_visita_tx ahora folio s = (Ok tt, s', tr) ->
  forall f, In f (get_visitas_abiertas s') <->
            In f (get_visitas_abiertas s) /\ FilaAbierta.folio f <> folio.
Proof.
  rewrite cerrar_visita_tx_eq. destruct (negb _); [discriminate|].
  intros [= <- _] f. unfold get_visitas_abiertas.
  rewrite !in_map_iff. fold (abiertas (cerrada ahora folio s)). fold (abiertas s).
  rewrite abiertas_cerrada. split.
  - intros (v & <- & Hv). apply order_by_In, filter_In in Hv. destruct Hv as [Hv Hf].
    split.
    + exists v. split; [reflexivity | now apply order_by_In].
    + simpl. intros Hfo. apply con_folio_true in Hfo. rewrite Hfo in Hf. discriminate.
  - intros [(v & <- & Hv) Hne]. exists v. split; [reflexivity|].
    apply order_by_In in Hv. apply order_by_In, filter_In. split; [exact Hv|].
    destruct (con_folio folio v) eqn:Hfo; auto.
    apply con_folio_true in Hfo. simpl in Hne. contradiction.
Qed.

Lemma X12_listado_tras_cerrar_testigo :
  cerrar_visita_tx "2024-05-01T11:00:00" "F1" bd_A_abierta =
    (Ok tt, bd_A_cerrada,
     [PRAGMA_foreign_keys; BEGIN_IMMEDIATE; UPDATE_cerrar_visita "F1";
      UPDATE_liberar_doctor_de_visita "F1"; UPDATE_liberar_cama_de_visita "F1";
      COMMIT])
  /\ forall f, In f (get_visitas_abiertas bd_A_cerrada) <->
               In f (get_visitas_abiertas bd_A_abierta) /\ FilaAbierta.folio f <> "F1".
Proof.
  split; [reflexivity|].
  exact (@X12_listado_tras_cerrar "2024-05-01T11:00:00" "F1" bd_A_abierta bd_A_cerrada
           _ eq_refl).
Defined.

(** ** Release and selection *)

(** X13. After [cerrar_visita_tx] on an open visit whose folio identifies it,
    the doctor of the visit, when its row exists and is active, is again
    active and available, its bed, when its row exists, is again free, and
    both selections find a candidate. *)
Theorem X13_cerrar_deja_seleccionables (ahora : string) (s : BD) (v : Visita.t)
    (d : Doctor.t) (c : Cama.t) :
  NoDup (map Visita.folio (VISITAS_EMERGENCIA s)) ->
  In v (VISITAS_EMERGENCIA s) -> Visita.estado v = ABIERTA ->
  In d (DOCTORES s) -> Doctor.id_doctor d = Visita.id_doctor v ->
  Doctor.activo d = true ->
  In c (CAMAS s) -> Cama.id_cama c = Visita.id_cama v ->
  Cama.id_sala c = Visita.id_sala v ->
  exists s' tr,
    cerrar_visita_tx ahora (Visita.folio v) s = (Ok tt, s', tr)
    /\ (exists d', In d' (DOCTORES s') /\ Doctor.id_doctor d' = Visita.id_doctor v
                   /\ Doctor.activo d' = true /\ Doctor.disponible d' = true)
    /\ (exists c', In c' (CAMAS s') /\ Cama.id_cama c' = Visita.id_cama v
                   /\ Cama.id_sala c' = Visita.id_sala v /\ Cama.estado c' = LIBRE)
    /\ (exists i, q_doctor_disponible s' = Some i)
    /\ (exists b, q_cama_libre s' = Some b).
Proof.
  intros Hnd Hv Ha Hd Hid Hact Hc Hc1 Hc2.
  rewrite cerrar_visita_tx_eq, (cerrar_visita_rowcount_1 ahora s v Hnd Hv Ha).
  cbn [negb Nat.eqb]. do 2 eexists. split; [reflexivity|].
  assert (Hd' : In (con_disponible true d) (DOCTORES (cerrada ahora (Visita.folio v) s))).
  { rewrite cerrada_DOCTORES, (subconsulta_unica Visita.id_doctor s v Hnd Hv).
    apply in_map_iff. exists d. split; [|exact Hd]. simpl.
    now rewrite Hid, Z.eqb_refl. }
  assert (Hc' : In (con_estado LIBRE c) (CAMAS (cerrada ahora (Visita.folio v) s))).
  { rewrite cerrada_CAMAS, (subconsulta_unica Visita.id_cama s v Hnd Hv),
      (subconsulta_unica Visita.id_sala s v Hnd Hv).
    apply in_map_iff. exists c. split; [|exact Hc]. simpl.
    now rewrite Hc1, Hc2, !Z.eqb_refl. }
  split; [exists (con_disponible true d); simpl; auto|].
  split; [exists (con_estado LIBRE c); simpl; auto|]. split.
  - destruct (q_doctor_disponible _) as [i|] eqn:E; [eauto|]. exfalso.
    pose proof (proj1 (q_doctor_disponible_None _) E _ Hd') as H.
    unfold elegible in H. simpl in H. rewrite Hact in H. discriminate.
  - destruct (q_cama_libre _) as [b|] eqn:E; [eauto|]. exfalso.
    pose proof (proj1 (q_cama_libre_None _) E _ Hc') as H. discriminate.
Qed.

Lemma X13_cerrar_deja_seleccionables_testigo :
  NoDup (map Visita.folio (VISITAS_EMERGENCIA bd_A_abierta))
  /\ In visita_A (VISITAS_EMERGENCIA bd_A_abierta)
  /\ In (Doctor.mk 1 true false) (DOCTORES bd_A_abierta)
  /\ In (Cama.mk 1 1 OCUPADA) (CAMAS bd_A_abierta)
  /\ exists s' tr,
      cerrar_visita_tx "2024-05-01T11:00:00" "F1" bd_A_abierta = (Ok tt, s', tr)
      /\ (exists d', In d' (DOCTORES s') /\ Doctor.id_doctor d' = 1
                     /\ Doctor.activo d' = true /\ Doctor.disponible d' = true)
      /\ (exists c', In c' (CAMAS s') /\ Cama.id_cama c' = 1
                     /\ Cama.id_sala c' = 1 /\ Cama.estado c' = LIBRE)
      /\ (exists i, q_doctor_disponible s' = Some i)
      /\ (exists b, q_cama_libre s' = Some b).
Proof.
  assert (H1 : NoDup (map Visita.folio (VISITAS_EMERGENCIA bd_A_abierta)))
    by (simpl; constructor; [intros [] | constructor]).
  assert (H2 : In visita_A (VISITAS_EMERGENCIA bd_A_abierta)) by (simpl; auto).
  assert (H3 : In (Doctor.mk 1 true false) (DOCTORES bd_A_abierta)) by (simpl; auto).
  assert (H4 : In (Cama.mk 1 1 OCUPADA) (CAMAS bd_A_abierta)) by (simpl; auto).
  split; [exact H1|]. split; [exact H2|]. split; [exact H3|]. split; [exact H4|].
  exact (@X13_cerrar_deja_seleccionables "2024-05-01T11:00:00" bd_A_abierta visita_A
           (Doctor.mk 1 true false) (Cama.mk 1 1 OCUPADA)
           H1 H2 eq_refl H3 eq_refl eq_refl H4 eq_refl eq_refl).
Defined.

(** ** Statements executed by [crear_visita_tx] *)

(** X14. [crear_visita_tx] executes the INSERT exactly when it returns
    normally, and a call that raises "No hay doctor disponible" or "No hay
    camas libres" has executed no statement that writes. *)
Theorem X14_sentencias_de_crear
    (genera_folio : BD -> Z -> string) (ahora : string) (payload : Payload.t) (s : BD) :
  let '(r, _, tr) := crear_visita_tx genera_folio ahora payload s in
  (In INSERT_visita tr <-> exists a, r = Ok a)
  /\ (r = Raise No_hay_doctor_disponible \/ r = Raise No_hay_camas_libres ->
      existsb es_escritura tr = false).
Proof.
  rewrite crear_visita_tx_eq. cbv zeta.
  assert (Hno : forall (e : Excepcion) (tr : list Sentencia),
             ~ In INSERT_visita tr ->
             (In INSERT_visita tr <-> exists a : Asignacion.t, Raise e = Ok a)).
  { intros e tr H. split; [tauto | intros (a & Ha); discriminate]. }
  destruct (q_doctor_disponible s) as [d|].
  2:{ split; [apply Hno; simpl; intuition discriminate | reflexivity]. }
  destruct (d =? 0).
  { split; [apply Hno; simpl; intuition discriminate | reflexivity]. }
  destruct (q_cama_libre s) as [[c sa]|].
  2:{ split; [apply Hno; simpl; intuition discriminate | reflexivity]. }
  destruct (c =? 0).
  { split; [apply Hno; simpl; intuition discriminate | reflexivity]. }
  destruct (negb _).
  { split; [apply Hno; simpl; intuition discriminate | intros [H|H]; discriminate]. }
  destruct (negb _).
  { split; [apply Hno; simpl; intuition discriminate | intros [H|H]; discriminate]. }
  destruct (primera_faltante payload).
  { split; [apply Hno; simpl; intuition discriminate | intros [H|H]; discriminate]. }
  destruct (negb _).
  { split; [apply Hno; simpl; intuition discriminate | intros [H|H]; discriminate]. }
  split; [|intros [H|H]; discriminate].
  split; [eauto | intros _; simpl; auto 10].
Qed.

(** ** Opening without resources *)

(** X15. When no doctor is both active and available, [crear_visita_tx]
    raises "No hay doctor disponible" after the one SELECT of the doctor and
    leaves the database as it was. *)
Theorem X15_crear_sin_doctor_elegible
    (genera_folio : BD -> Z -> string) (ahora : string) (payload : Payload.t) (s : BD) :
  (forall d, In d (DOCTORES s) -> Doctor.activo d = false \/ Doctor.disponible d = false) ->
  crear_visita_tx genera_folio ahora payload s =
    (Raise No_hay_doctor_disponible, s,
     [PRAGMA_foreign_keys; BEGIN_IMMEDIATE; SELECT_doctor_disponible; ROLLBACK]).
Proof.
  intros H. rewrite crear_visita_tx_eq. cbv zeta.
  rewrite (proj2 (q_doctor_disponible_None s)); [reflexivity|].
  intros d Hd. unfold elegible. apply andb_false_iff. exact (H d Hd).
Qed.

Lemma X15_crear_sin_doctor_elegible_testigo :
  (forall d, In d (DOCTORES bd_A_abierta) ->
             Doctor.activo d = false \/ Doctor.disponible d = false)
  /\ crear_visita_tx folio_ejemplo "2024-05-01T10:30:00" payload_A bd_A_abierta =
       (Raise No_hay_doctor_disponible, bd_A_abierta,
        [PRAGMA_foreign_keys; BEGIN_IMMEDIATE; SELECT_doctor_disponible; ROLLBACK]).
Proof.
  assert (H : forall d, In d (DOCTORES bd_A_abierta) ->
                Doctor.activo d = false \/ Doctor.disponible d = false)
    by (intros d [<-|[]]; simpl; auto).
  split; [exact H|].
  exact (@X15_crear_sin_doctor_elegible folio_ejemplo "2024-05-01T10:30:00" payload_A
           bd_A_abierta H).
Defined.

(** X16. When some doctor is active and available, no such doctor has the
    identity 0 and every bed is occupied, [crear_visita_tx] raises "No hay
    camas libres" after the two SELECTs, without claiming the doctor, and
    leaves the database as it was. *)
Theorem X16_crear_sin_cama_libre
    (genera_folio : BD -> Z -> string) (ahora : string) (payload : Payload.t) (s : BD) :
  (exists d, In d (DOCTORES s) /\ Doctor.activo d = true /\ Doctor.disponible d = true) ->
  (forall d, In d (DOCTORES s) -> Doctor.activo d = true -> Doctor.disponible d = true ->
             Doctor.id_doctor d <> 0) ->
  (forall c, In c (CAMAS s) -> Cama.estado c = OCUPADA) ->
  crear_visita_tx genera_folio ahora payload s =
    (Raise No_hay_camas_libres, s,
     [PRAGMA_foreign_keys; BEGIN_IMMEDIATE; SELECT_doctor_disponible; SELECT_cama_libre;
      ROLLBACK]).
Proof.
  intros (d0 & Hd0 & Ha0 & Hv0) Hd Hc. rewrite crear_visita_tx_eq. cbv zeta.
  destruct (q_doctor_disponible s) as [i|] eqn:Ei.
  2:{ pose proof (proj1 (q_doctor_disponible_None s) Ei d0 Hd0) as H.
      unfold elegible in H. rewrite Ha0, Hv0 in H. discriminate. }
  destruct (q_doctor_disponible_Some _ Ei) as (d & Hdin & Hid & He & _).
  unfold elegible in He. apply andb_true_iff in He. destruct He as [He1 He2].
  assert (Hi : i <> 0) by (rewrite <- Hid; now apply Hd).
  apply Z.eqb_neq in Hi. rewrite Hi.
  rewrite (proj2 (q_cama_libre_None s)); [reflexivity|].
  intros c Hin. unfold libre. now rewrite (Hc c Hin).
Qed.

Lemma X16_crear_sin_cama_libre_testigo :
  (exists d, In d (DOCTORES (mkBD [Doctor.mk 2 true true] [Cama.mk 1 1 OCUPADA] []))
             /\ Doctor.activo d = true /\ Doctor.disponible d = true)
  /\ crear_visita_tx folio_ejemplo "2024-05-01T10:30:00" payload_A
       (mkBD [Doctor.mk 2 true true] [Cama.mk 1 1 OCUPADA] []) =
       (Raise No_hay_camas_libres,
        mkBD [Doctor.mk 2 true true] [Cama.mk 1 1 OCUPADA] [],
        [PRAGMA_foreign_keys; BEGIN_IMMEDIATE; SELECT_doctor_disponible;
         SELECT_cama_libre; ROLLBACK]).
Proof.
  assert (H1 : exists d,
             In d (DOCTORES (mkBD [Doctor.mk 2 true true] [Cama.mk 1 1 OCUPADA] []))
             /\ Doctor.activo d = true /\ Doctor.disponible d = true)
    by (exists (Doctor.mk 2 true true); simpl; auto).
  split; [exact H1|].
  apply (@X16_crear_sin_cama_libre folio_ejemplo "2024-05-01T10:30:00" payload_A
           (mkBD [Doctor.mk 2 true true] [Cama.mk 1 1 OCUPADA] []) H1).
  - intros d [<-|[]]; simpl; discriminate.
  - intros c [<-|[]]; reflexivity.
Defined.
